(** * BricksLLM: the route handler, response accounting and process shutdown

    A shallow embedding of
    - [internal/server/web/proxy/route.go]: [getRouteHandler], [parseResult];
    - [cmd/bricksllm/main.go]: the part of [main] that follows [<-quit].

    The handler talks to its collaborators (cache, route, estimators, stats,
    logger, gin context) through Go interfaces whose implementations live
    outside the two files.  Every such call is recorded as an [Effect] in the
    order the handler issues it; what the collaborator answers is read from
    the interface value passed to the handler.  The gin context's key/value
    store ([c.Keys]) is threaded as state. *)

From Stdlib Require Import ZArith String List Floats.
From stdpp Require Import gmap strings.

Local Open Scope string_scope.
Local Open Scope list_scope.
Local Open Scope Z_scope.

(* Decimal prices such as 0.00012 are not binary64 values; the nearest one is
   meant, as in Go. *)
#[local] Set Warnings "-inexact-float".

(** ** Go values *)

(** [[]byte] *)
Definition bytes := list Byte.byte.

(** [time.Duration] and [time.Time]: nanosecond counts. *)
Definition Duration := Z.
Definition Time := Z.

(** Go's [error] values, as far as the handler can tell them apart:
    [context.DeadlineExceeded], an error made by [errors.New], and an error
    that wraps another one (the [%w] verb of [fmt.Errorf]). *)
Inductive error : Type :=
| DeadlineExceeded
| errorString (msg : string)
| wrapError (msg : string) (inner : error).

(** [errors.Is(err, context.DeadlineExceeded)]: walks the [Unwrap] chain. *)
Fixpoint errors_Is_DeadlineExceeded (err : error) : bool :=
  match err with
  | DeadlineExceeded => true
  | errorString _ => false
  | wrapError _ inner => errors_Is_DeadlineExceeded inner
  end.

(** A call that returns [(T, error)] with the value only meaningful when the
    error is nil. *)
Inductive result (A : Type) : Type :=
| Ok (a : A)
| Err (e : error).
Arguments Ok {A} a.
Arguments Err {A} e.

(** ** Records of the collaborating packages (the fields this code reads) *)

(** [key.ResponseKey] *)
Record ResponseKey := {
  KeyId : string;
  CostLimitInUsdUnit : string
}.

(** [provider.Setting] *)
Record Setting := {
  Id : string;
  Provider : string
}.

(** [route.CacheConfig] *)
Record CacheConfig := {
  Ttl : string
}.

(** [*http.Request] as forwarded to the route. *)
Record http_Request := {
  Method : string;
  URL : string;
  ReqBody : bytes
}.

(** [*http.Response]: [Header] is a Go map from a name to its values, listed
    here in the order the [range] loop of the handler happens to visit it;
    [Body] is what [io.ReadAll(res.Body)] yields. *)
Record http_Response := {
  StatusCode : Z;
  Header : list (string * list string);
  Body : result bytes
}.

(** [route.Request] *)
Record route_Request := {
  Settings : gmap string Setting;
  Key : ResponseKey;
  Forwarded : http_Request
}.

(** [route.Response], the value [RunSteps] returns. *)
Record route_Response := {
  Model : string;
  RunProvider : string;
  Response : http_Response
}.

(** [route.Route] with the two methods the handler calls on it. *)
Record Route := {
  CacheConfig_ : option CacheConfig;
  ShouldRunEmbeddings : bool;
  RunSteps : route_Request -> result route_Response
}.

(** [goopenai.Usage] *)
Record Usage := {
  PromptTokens : Z;
  CompletionTokens : Z;
  TotalTokens : Z
}.

Definition Usage_zero : Usage :=
  {| PromptTokens := 0; CompletionTokens := 0; TotalTokens := 0 |}.

(** [EmbeddingResponseBase64], [EmbeddingResponse] (package proxy) and
    [goopenai.ChatCompletionResponse]: only [Usage] and [Model] are read. *)
Record EmbeddingResponseBase64 := { b64_Usage : Usage }.
Record EmbeddingResponse := { emb_Usage : Usage }.
Record ChatCompletionResponse := { chat_Model : string; chat_Usage : Usage }.

(** [goopenai.ErrorResponse] *)
Record ErrorResponse := {
  ErrMessage : string;
  ErrType : string
}.

(** ** Interfaces *)

(** [type cache interface] (route.go, lines 25-28). *)
Record cache := {
  StoreBytes : string -> bytes -> Duration -> option error;
  GetBytes : string -> result bytes
}.

(** [estimator] and [azureEstimator]: both interfaces are declared in another
    file of the package; these are the methods [parseResult] calls.  Go
    returns the pair [(float64, error)] whole, and the chat branch assigns the
    float before it tests the error. *)
Record estimator := {
  EstimateTotalCost : string -> Z -> Z -> float * option error;
  EstimateEmbeddingsInputCost : string -> Z -> float * option error
}.
Definition azureEstimator := estimator.

(** [recorder]: the only method named in route.go is [RecordKeySpend], in the
    disabled lines 234-239 and 265-269. *)
Record recorder := {
  RecordKeySpend : string -> Z -> string -> option error
}.

(** [routeManager] (route.go, lines 21-23). *)
Record routeManager := {
  GetRouteFromMemDb : string -> option Route
}.

(** ** The gin context *)

(** What [c.Keys] can hold: the dynamic types this code stores or asserts. *)
Inductive Value : Type :=
| VResponseKey (kc : ResponseKey)
| VRoute (rc : Route)
| VSettings (settings : list Setting)
| VString (s : string)
| VFloat64 (f : float)
| VInt (n : Z)
| VBool (b : bool).

(** [*gin.Context] on entry.  [Request] is [None] for a nil [c.Request]. *)
Record gin_Context := {
  Request : option http_Request;
  FullPath : string;
  Keys : gmap string Value
}.

(** ** Effects *)

Inductive Receiver := the_e | the_aoe.

Inductive Effect : Type :=
| StatsIncr (name : string) (tags : list string)
| StatsTiming (name : string) (d : Duration)
| LogError (msg : string) (prod : bool) (cid : string) (err : error)
| LogOpenAiError (prod : bool) (cid : string) (errorRes : ErrorResponse)
| CacheGetBytes (key : string)
| CacheStoreBytes (key : string) (value : bytes) (ttl : Duration)
| RouteRunSteps (req : route_Request)
| BodyReadAll
| BodyClose
| RunResCancel
| CallEstimateTotalCost (who : Receiver) (model : string) (prompt completion : Z)
| CallEstimateEmbeddingsInputCost (who : Receiver) (model : string) (tokens : Z)
| CallRecordKeySpend (keyId : string) (micros : Z) (limitUnit : string)
| CtxSet (key : string) (v : Value)
| CtxHeader (name value : string)
| CtxData (code : Z) (contentType : string) (body : bytes)
| JSON (code : Z) (message : string).

(** ** The execution monad: context keys, effects so far, clock reads *)

Record Exec := mkExec {
  keys : gmap string Value;
  effects : list Effect;
  ticks : nat
}.

Definition M (A : Type) : Type := Exec -> A * Exec.

Definition ret {A} (a : A) : M A := fun s => (a, s).

Definition bind {A B} (m : M A) (k : A -> M B) : M B :=
  fun s => let (a, s') := m s in k a s'.

Declare Scope go_scope.
Delimit Scope go_scope with go.
Notation "'let*' x ':=' m 'in' k" := (bind m (fun x => k))
  (at level 10, x pattern, m at level 100, k at level 200) : go_scope.
Notation "m ';;;' k" := (bind m (fun _ => k))
  (at level 100, k at level 200, right associativity) : go_scope.
Local Open Scope go_scope.

Definition emit (e : Effect) : M unit :=
  fun s => (tt, {| keys := keys s; effects := effects s ++ [e]; ticks := ticks s |}).

(** [c.Get(key)]: the value and whether it exists. *)
Definition c_Get (key : string) : M (option Value) :=
  fun s => (keys s !! key, s).

(** [c.GetString(key)]: the empty string when the key is absent or holds
    something that is not a string. *)
Definition c_GetString (key : string) : M string :=
  fun s => (match keys s !! key with Some (VString v) => v | _ => "" end, s).

(** [c.Set(key, value)] *)
Definition c_Set (key : string) (v : Value) : M unit :=
  fun s => (tt, {| keys := <[key := v]> (keys s);
                   effects := effects s ++ [CtxSet key v];
                   ticks := ticks s |}).

(** [time.Now()]: the next reading of the clock. *)
Definition time_Now (clock : nat -> Time) : M Time :=
  fun s => (clock (ticks s),
            {| keys := keys s; effects := effects s; ticks := S (ticks s) |}).

(** A [for ... range] loop whose body only has effects. *)
Fixpoint for_range {A} (l : list A) (body : A -> M unit) : M unit :=
  match l with
  | [] => ret tt
  | x :: l' => body x ;;; for_range l' body
  end.

(** How a block of statements ends: falls through, or executes [return]. *)
Inductive ctl : Type :=
| Next
| Return (err : option error).

(** ** What the Go runtime and the rest of the package provide

    [json.Unmarshal] into each of the four target types, [time.ParseDuration],
    the wall clock behind [time.Now], and the package constant
    [correlationId] (declared outside route.go). *)
Record Runtime := {
  correlationId : string;
  json_Unmarshal_EmbeddingResponseBase64 : bytes -> result EmbeddingResponseBase64;
  json_Unmarshal_EmbeddingResponse : bytes -> result EmbeddingResponse;
  json_Unmarshal_ChatCompletionResponse : bytes -> result ChatCompletionResponse;
  json_Unmarshal_ErrorResponse : bytes -> ErrorResponse * option error;
  time_ParseDuration : string -> result Duration;
  clock : nat -> Time
}.

(** The local variables of [parseResult] that its deferred function reads. *)
Record locals := {
  cost : float;
  promptTokenCounts : Z;
  completionTokenCounts : Z
}.

Definition set_cost (v : float) (l : locals) : locals :=
  {| cost := v; promptTokenCounts := promptTokenCounts l;
     completionTokenCounts := completionTokenCounts l |}.

Definition set_promptTokenCounts (v : Z) (l : locals) : locals :=
  {| cost := cost l; promptTokenCounts := v;
     completionTokenCounts := completionTokenCounts l |}.

Definition set_completionTokenCounts (v : Z) (l : locals) : locals :=
  {| cost := cost l; promptTokenCounts := promptTokenCounts l;
     completionTokenCounts := v |}.

Section Proxy.

Context (rt : Runtime).

(** ** [parseResult] (route.go, lines 176-273) *)

Definition call_EstimateEmbeddingsInputCost
    (who : Receiver) (est : estimator) (model : string) (tokens : Z)
    : M (float * option error) :=
  emit (CallEstimateEmbeddingsInputCost who model tokens) ;;;
  ret (EstimateEmbeddingsInputCost est model tokens).

Definition call_EstimateTotalCost
    (who : Receiver) (est : estimator) (model : string) (prompt completion : Z)
    : M (float * option error) :=
  emit (CallEstimateTotalCost who model prompt completion) ;;;
  ret (EstimateTotalCost est model prompt completion).

(** Lines 191-240: the body of [if runEmbeddings]. *)
Definition embeddings_block
    (bytes : bytes) (e : estimator) (aoe : azureEstimator)
    (model provider : string) (l : locals) : M (locals * ctl) :=
  let* format := c_GetString "encoding_format" in
  let is_base64 := String.eqb format "base64" in
  (* 193-198 *)
  match (if is_base64 then json_Unmarshal_EmbeddingResponseBase64 rt bytes
         else Ok {| b64_Usage := Usage_zero |}) with
  | Err err => ret (l, Return (Some err))
  | Ok base64ChatRes =>
  (* 200-205 *)
  match (if negb is_base64 then json_Unmarshal_EmbeddingResponse rt bytes
         else Ok {| emb_Usage := Usage_zero |}) with
  | Err err => ret (l, Return (Some err))
  | Ok chatRes =>
  (* 207-211 *)
  let totalTokens := 0 in
  let '(totalTokens, l) :=
    if is_base64
    then (TotalTokens (b64_Usage base64ChatRes),
          set_promptTokenCounts (PromptTokens (b64_Usage base64ChatRes)) l)
    else (totalTokens, l) in
  (* 213-216 *)
  let '(totalTokens, l) :=
    if negb is_base64
    then (TotalTokens (emb_Usage chatRes),
          set_promptTokenCounts (PromptTokens (emb_Usage chatRes)) l)
    else (totalTokens, l) in
  (* 218-232 *)
  if String.eqb provider "azure" then
    let* (ecost, err) := call_EstimateEmbeddingsInputCost the_aoe aoe model totalTokens in
    match err with
    | Some err => ret (l, Return (Some err))
    | None => ret (set_cost ecost l, Next)
    end
  else if String.eqb provider "openai" then
    let* (ecost, err) := call_EstimateEmbeddingsInputCost the_e e model totalTokens in
    match err with
    | Some err => ret (l, Return (Some err))
    | None => ret (set_cost ecost l, Next)
    end
  else ret (l, Next)
  end end.

(** Lines 242-270: the body of [if !runEmbeddings].  [cost, err = ...]
    assigns [cost] before [err] is tested. *)
Definition chat_block
    (bytes : bytes) (e : estimator) (aoe : azureEstimator)
    (provider : string) (l : locals) : M (locals * ctl) :=
  match json_Unmarshal_ChatCompletionResponse rt bytes with
  | Err err => ret (l, Return (Some err))
  | Ok chatRes =>
  let l := set_promptTokenCounts (PromptTokens (chat_Usage chatRes)) l in
  let l := set_completionTokenCounts (CompletionTokens (chat_Usage chatRes)) l in
  if String.eqb provider "azure" then
    let* (c, err) := call_EstimateTotalCost the_aoe aoe (chat_Model chatRes)
                       (PromptTokens (chat_Usage chatRes))
                       (CompletionTokens (chat_Usage chatRes)) in
    let l := set_cost c l in
    match err with
    | Some err => ret (l, Return (Some err))
    | None => ret (l, Next)
    end
  else if String.eqb provider "openai" then
    let* (c, err) := call_EstimateTotalCost the_e e (chat_Model chatRes)
                       (PromptTokens (chat_Usage chatRes))
                       (CompletionTokens (chat_Usage chatRes)) in
    let l := set_cost c l in
    match err with
    | Some err => ret (l, Return (Some err))
    | None => ret (l, Next)
    end
  else ret (l, Next)
  end.

(** Lines 184-189: the deferred function, run at every return. *)
Definition parseResult_deferred (provider : string) (l : locals) : M unit :=
  c_Set "provider" (VString provider) ;;;
  c_Set "costInUsd" (VFloat64 (cost l)) ;;;
  c_Set "promptTokenCount" (VInt (promptTokenCounts l)) ;;;
  c_Set "completionTokenCount" (VInt (completionTokenCounts l)).

(** The statements of [parseResult] up to its [return], with the locals as
    they stand at that point. *)
Definition parseResult_body
    (runEmbeddings : bool) (bytes : bytes) (e : estimator) (aoe : azureEstimator)
    (model provider : string) : M (locals * option error) :=
  let l := {| cost := 0%float; promptTokenCounts := 0; completionTokenCounts := 0 |} in
  let* (l, k) := (if runEmbeddings
                  then embeddings_block bytes e aoe model provider l
                  else ret (l, Next)) in
  match k with
  | Return err => ret (l, err)
  | Next =>
  let* (l, k) := (if negb runEmbeddings
                  then chat_block bytes e aoe provider l
                  else ret (l, Next)) in
  match k with
  | Return err => ret (l, err)
  | Next => ret (l, None)
  end
  end.

Definition parseResult
    (ca : cache) (kc : ResponseKey) (runEmbeddings : bool) (bytes : bytes)
    (e : estimator) (aoe : azureEstimator) (r : recorder)
    (model provider : string) : M (option error) :=
  let* (l, err) := parseResult_body runEmbeddings bytes e aoe model provider in
  parseResult_deferred provider l ;;;
  ret err.

(** ** [getRouteHandler] (route.go, lines 30-174)

    The closure is entered with a non-nil [c]; the arguments [client] and
    [log] are represented by the effects the handler sends through them. *)

(** Lines 83-86. *)
Definition settingsMap_of (settings : list Setting) : gmap string Setting :=
  foldl (fun m setting => <[Id setting := setting]> m) ∅ settings.

Definition logError (msg : string) (prod : bool) (cid : string) (err : error) : M unit :=
  emit (LogError msg prod cid err).

(** Lines 132-145: the store into the cache. *)
Definition storeResponse
    (prod : bool) (ca : cache) (rc : Route) (cacheKey : string)
    (shouldCache : bool) (cid : string) (bytes : bytes) : M unit :=
  match shouldCache, CacheConfig_ rc with
  | true, Some cacheConfig =>
      match time_ParseDuration rt (Ttl cacheConfig) with
      | Err err => logError "error when parsing cache config ttl" prod cid err
      | Ok parsed =>
          emit (CacheStoreBytes cacheKey bytes parsed) ;;;
          match StoreBytes ca cacheKey bytes parsed with
          | Some err => logError "error when storing cached response" prod cid err
          | None => ret tt
          end
      end
  | _, _ => ret tt
  end.

(** Lines 166-170: the upstream headers, value by value. *)
Definition copyHeaders (hdr : list (string * list string)) : M unit :=
  for_range hdr (fun nv =>
    for_range (snd nv) (fun value => emit (CtxHeader (fst nv) value))).

(** Lines 128-172: from the status test to [c.Data]. *)
Definition respond
    (prod : bool) (ca : cache) (aoe : azureEstimator) (e : estimator) (r : recorder)
    (kc : ResponseKey) (rc : Route) (cacheKey : string) (shouldCache : bool)
    (cid : string) (dur : Duration) (runRes : route_Response) (bytes : bytes)
    : M unit :=
  let res := Response runRes in
  (if StatusCode res =? 200 then
     emit (StatsIncr "bricksllm.proxy.get_route_handeler.success" []) ;;;
     emit (StatsTiming "bricksllm.proxy.get_route_handeler.success_latency" dur) ;;;
     storeResponse prod ca rc cacheKey shouldCache cid bytes ;;;
     let* err := parseResult ca kc (ShouldRunEmbeddings rc) bytes e aoe r
                   (Model runRes) (RunProvider runRes) in
     match err with
     | Some err => logError "error when parsing run steps result" prod cid err
     | None => ret tt
     end
   else ret tt) ;;;
  (if negb (StatusCode res =? 200) then
     emit (StatsTiming "bricksllm.proxy.get_azure_embeddings_handler.error_latency" dur) ;;;
     emit (StatsIncr "bricksllm.proxy.get_azure_embeddings_handler.error_response" []) ;;;
     let (errorRes, err) := json_Unmarshal_ErrorResponse rt bytes in
     match err with
     | Some err =>
         logError "error when unmarshalling azure openai embedding error response body"
           prod cid err
     | None => ret tt
     end ;;;
     emit (LogOpenAiError prod cid errorRes)
   else ret tt) ;;;
  copyHeaders (Header res) ;;;
  emit (CtxData (StatusCode res) "application/json" bytes).

(** Lines 75-172: everything after the cache lookup missed. *)
Definition runRoute
    (prod : bool) (ca : cache) (aoe : azureEstimator) (e : estimator) (r : recorder)
    (tags : list string) (request : http_Request) (kc : ResponseKey) (rc : Route)
    (cacheKey : string) (shouldCache : bool) : M unit :=
  let* raw := c_Get "settings" in
  match raw with
  | Some (VSettings settings) =>
      let settingsMap := settingsMap_of settings in
      let* cid := c_GetString (correlationId rt) in
      let* start := time_Now (clock rt) in
      let req := {| Settings := settingsMap; Key := kc; Forwarded := request |} in
      emit (RouteRunSteps req) ;;;
      match RunSteps rc req with
      | Err err =>
          if errors_Is_DeadlineExceeded err then
            emit (StatsIncr "bricksllm.proxy.get_route_handeler.timeout" tags) ;;;
            logError "running steps time out" prod cid err ;;;
            emit (JSON 408 "[BricksLLM] request timeout")
          else
            emit (StatsIncr "bricksllm.proxy.get_route_handeler.run_steps_error" tags) ;;;
            logError "error when running steps" prod cid err ;;;
            emit (JSON 500 "[BricksLLM] cannot run route steps")
      | Ok runRes =>
          (* defer runRes.Cancel() *)
          c_Set "model" (VString (Model runRes)) ;;;
          let res := Response runRes in
          (* defer res.Body.Close() *)
          let* now := time_Now (clock rt) in
          let dur := now - start in
          emit (StatsTiming "bricksllm.proxy.get_route_handeler.latency" dur) ;;;
          emit BodyReadAll ;;;
          match Body res with
          | Err err =>
              logError "error when reading route response body" prod cid err ;;;
              emit (JSON 500 "[BricksLLM] failed to read route response body")
          | Ok bytes =>
              respond prod ca aoe e r kc rc cacheKey shouldCache cid dur runRes bytes
          end ;;;
          (* the two deferred calls, last registered first *)
          emit BodyClose ;;;
          emit RunResCancel
      end
  | _ =>
      emit (StatsIncr "bricksllm.proxy.get_route_handeler.provider_settings_not_found" tags) ;;;
      emit (JSON 404 "[BricksLLM] provider settings not found")
  end.

(** Lines 63-73: [true] when the response was served from the cache. *)
Definition serveCached
    (ca : cache) (trueStart : Time) (cacheKey : string) (shouldCache : bool) : M bool :=
  if shouldCache then
    emit (CacheGetBytes cacheKey) ;;;
    match GetBytes ca cacheKey with
    | Ok bytes =>
        if negb (Z.of_nat (length bytes) =? 0) then
          emit (StatsIncr "bricksllm.proxy.get_route_handeler.success" []) ;;;
          let* now := time_Now (clock rt) in
          emit (StatsTiming "bricksllm.proxy.get_route_handeler.success_latency"
                  (now - trueStart)) ;;;
          c_Set "provider" (VString "cached") ;;;
          emit (CtxData 200 "application/json" bytes) ;;;
          ret true
        else ret false
    | Err _ => ret false
    end
  else ret false.

Definition getRouteHandler
    (prod private : bool) (rm : routeManager) (ca : cache)
    (aoe : azureEstimator) (e : estimator) (r : recorder) (timeOut : Duration)
    (c : gin_Context) : M unit :=
  let* trueStart := time_Now (clock rt) in
  let tags := ["path:" +:+ FullPath c] in
  emit (StatsIncr "bricksllm.proxy.get_route_handeler.requests" tags) ;;;
  match Request c with
  | None => emit (JSON 500 "[BricksLLM] context is empty")
  | Some request =>
  let* raw := c_Get "key" in
  match raw with
  | Some (VResponseKey kc) =>
  let* raw := c_Get "route_config" in
  match raw with
  | Some (VRoute rc) =>
      let* cacheKey := c_GetString "cache_key" in
      let shouldCache := negb (Z.of_nat (String.length cacheKey) =? 0) in
      let* served := serveCached ca trueStart cacheKey shouldCache in
      if served then ret tt
      else runRoute prod ca aoe e r tags request kc rc cacheKey shouldCache
  | _ =>
      emit (StatsIncr "bricksllm.proxy.get_route_handeler.route_config_not_found" tags) ;;;
      emit (JSON 404 "[BricksLLM] route config not found")
  end
  | _ =>
      emit (StatsIncr "bricksllm.proxy.get_route_handeler.api_key_not_registered" tags) ;;;
      emit (JSON 401 "[BricksLLM] api key is not registered")
  end
  end.

(** Running the handler on a request: the state it starts from, and what is
    observable when it returns. *)
Definition enter (c : gin_Context) : Exec :=
  {| keys := Keys c; effects := []; ticks := 0 |}.

Definition serve
    (prod private : bool) (rm : routeManager) (ca : cache)
    (aoe : azureEstimator) (e : estimator) (r : recorder) (timeOut : Duration)
    (c : gin_Context) : Exec :=
  snd (getRouteHandler prod private rm ca aoe e r timeOut c (enter c)).

End Proxy.

(** ** Reading a trace *)

(** The calls that write the client response: header lines, then the status
    and body. *)
Definition writes_response (ev : Effect) : bool :=
  match ev with
  | CtxHeader _ _ | CtxData _ _ _ | JSON _ _ => true
  | _ => false
  end.

Definition response_of (tr : list Effect) : list Effect :=
  filter (fun ev => writes_response ev = true) tr.

(** What the deferred function of [parseResult] leaves in the context. *)
Definition attach (provider : string) (c : float) (prompt completion : Z)
    (ks : gmap string Value) : gmap string Value :=
  <["completionTokenCount" := VInt completion]>
    (<["promptTokenCount" := VInt prompt]>
       (<["costInUsd" := VFloat64 c]>
          (<["provider" := VString provider]> ks))).

(** The effects [parseResult] can have: calls on the two estimators and
    [c.Set]. *)
Definition accounting_effect (ev : Effect) : bool :=
  match ev with
  | CallEstimateTotalCost _ _ _ _ | CallEstimateEmbeddingsInputCost _ _ _
  | CtxSet _ _ => true
  | _ => false
  end.

Definition is_RecordKeySpend (ev : Effect) : bool :=
  match ev with
  | CallRecordKeySpend _ _ _ => true
  | _ => false
  end.

(** Statistics and log lines. *)
Definition diagnostic (ev : Effect) : bool :=
  match ev with
  | StatsIncr _ _ | StatsTiming _ _ | LogError _ _ _ _ | LogOpenAiError _ _ _ => true
  | _ => false
  end.

Definition is_estimate (ev : Effect) : bool :=
  match ev with
  | CallEstimateTotalCost _ _ _ _ | CallEstimateEmbeddingsInputCost _ _ _ => true
  | _ => false
  end.

(** The [c.Header] calls of the loop at lines 166-170, in loop order. *)
Definition header_calls (hdr : list (string * list string)) : list Effect :=
  flat_map (fun nv => map (CtxHeader (fst nv)) (snd nv)) hdr.

(** ** Which path a request takes *)

(** Line 60: [c.GetString("cache_key")] on the entry context. *)
Definition cacheKey_of (c : gin_Context) : string :=
  match Keys c !! "cache_key" with
  | Some (VString v) => v
  | _ => ""
  end.

(** Lines 61-65: the cached bytes the handler would serve, if any. *)
Definition cache_hit (ca : cache) (c : gin_Context) : option bytes :=
  let cacheKey := cacheKey_of c in
  if negb (Z.of_nat (String.length cacheKey) =? 0) then
    match GetBytes ca cacheKey with
    | Ok b => if negb (Z.of_nat (length b) =? 0) then Some b else None
    | Err _ => None
    end
  else None.

(** The request passes the guards of lines 39-81 and is not served from the
    cache, so that the handler calls [rc.RunSteps]. *)
Definition dispatches (ca : cache) (c : gin_Context)
    (request : http_Request) (kc : ResponseKey) (rc : Route)
    (settings : list Setting) : Prop :=
  Request c = Some request /\
  Keys c !! "key" = Some (VResponseKey kc) /\
  Keys c !! "route_config" = Some (VRoute rc) /\
  cache_hit ca c = None /\
  Keys c !! "settings" = Some (VSettings settings).

(** Lines 90-95: the argument of [rc.RunSteps]. *)
Definition request_of (request : http_Request) (kc : ResponseKey)
    (settings : list Setting) : route_Request :=
  {| Settings := settingsMap_of settings; Key := kc; Forwarded := request |}.

(** Line 88: [c.GetString(correlationId)] on the entry context. *)
Definition cid_of (rt : Runtime) (c : gin_Context) : string :=
  match Keys c !! correlationId rt with
  | Some (VString v) => v
  | _ => ""
  end.

(** Lines 128 and 147: the error the call of [parseResult] hands back to the
    handler; [None] when the call is not reached (status other than 200) or
    returns nil.  At line 147 the context is the entry context with ["model"]
    set at line 113. *)
Definition accounting_error (rt : Runtime) (ca : cache) (aoe : azureEstimator)
    (e : estimator) (r : recorder) (c : gin_Context) (kc : ResponseKey)
    (rc : Route) (runRes : route_Response) (b : bytes) : option error :=
  if StatusCode (Response runRes) =? 200 then
    fst (parseResult rt ca kc (ShouldRunEmbeddings rc) b e aoe r
           (Model runRes) (RunProvider runRes)
           {| keys := <["model" := VString (Model runRes)]> (Keys c);
              effects := []; ticks := 0 |})
  else None.

(** Line 149: the log line for an error of [parseResult]. *)
Definition accounting_log (prod : bool) (cid : string) (err : option error)
    : list Effect :=
  match err with
  | Some err => [LogError "error when parsing run steps result" prod cid err]
  | None => []
  end.

(** Lines 32-121 on the dispatching path: the effects up to and including
    the read of the upstream body. *)
Definition prelude (rt : Runtime) (c : gin_Context) (request : http_Request)
    (kc : ResponseKey) (settings : list Setting) (runRes : route_Response)
    : list Effect :=
  StatsIncr "bricksllm.proxy.get_route_handeler.requests" ["path:" +:+ FullPath c]
  :: (if negb (Z.of_nat (String.length (cacheKey_of c)) =? 0)
      then [CacheGetBytes (cacheKey_of c)] else [])
  ++ [RouteRunSteps (request_of request kc settings);
      CtxSet "model" (VString (Model runRes));
      StatsTiming "bricksllm.proxy.get_route_handeler.latency"
        (clock rt 2 - clock rt 1);
      BodyReadAll].

(** ** The specification's cost unit

    Section 4.6 of the specification: [cost_micro_usd = round(cost_usd x
    1_000_000)], an integer (the glossary: micro-USD is stored as a signed
    64-bit integer). *)
Definition round_float (f : float) : Z :=
  match Prim2SF f with
  | S754_finite sign m ex =>
      let magnitude :=
        if 0 <=? ex then Z.pos m * 2 ^ ex
        else (Z.pos m + 2 ^ (- ex - 1)) / 2 ^ (- ex) in
      if sign then - magnitude else magnitude
  | _ => 0
  end.

Definition cost_micro_usd (cost_usd : float) : Z :=
  round_float (cost_usd * 1000000)%float.

(** A context value that is the amount [n], as an integer or as a float. *)
Definition is_amount (n : Z) (v : Value) : bool :=
  match v with
  | VInt m => m =? n
  | VFloat64 f => PrimFloat.eqb f (PrimFloat.of_uint63 (Uint63.of_Z n))
  | _ => false
  end.

(** The accounting state as the specification has the accountant attach it:
    some key of the context holds each of the prompt token count, the
    completion token count, the cost in micro-USD, the provider and the
    model. *)
Definition holds (ks : gmap string Value) (v : Value) : Prop :=
  exists k, ks !! k = Some v.

Definition attaches_micro_usd_accounting (ks : gmap string Value)
    (prompt completion : Z) (cost_usd : float) (provider model : string) : Prop :=
  holds ks (VInt prompt) /\
  holds ks (VInt completion) /\
  (exists k v, ks !! k = Some v /\ is_amount (cost_micro_usd cost_usd) v = true) /\
  holds ks (VString provider) /\
  holds ks (VString model).

(** A runtime whose embeddings decoders hide [usage.completion_tokens]. *)
Definition hide_completion (u : Usage) : Usage :=
  {| PromptTokens := PromptTokens u; CompletionTokens := 0;
     TotalTokens := TotalTokens u |}.

Definition hide_embeddings_completion (rt : Runtime) : Runtime :=
  {| correlationId := correlationId rt;
     json_Unmarshal_EmbeddingResponseBase64 := fun b =>
       match json_Unmarshal_EmbeddingResponseBase64 rt b with
       | Ok v => Ok {| b64_Usage := hide_completion (b64_Usage v) |}
       | Err err => Err err
       end;
     json_Unmarshal_EmbeddingResponse := fun b =>
       match json_Unmarshal_EmbeddingResponse rt b with
       | Ok v => Ok {| emb_Usage := hide_completion (emb_Usage v) |}
       | Err err => Err err
       end;
     json_Unmarshal_ChatCompletionResponse := json_Unmarshal_ChatCompletionResponse rt;
     json_Unmarshal_ErrorResponse := json_Unmarshal_ErrorResponse rt;
     time_ParseDuration := time_ParseDuration rt;
     clock := clock rt |}.

(** ** [main] from [<-quit] to its return (main.go, lines 242-272) *)

Module Main.

Inductive Signal : Type := SIGHUP | SIGINT | SIGQUIT | SIGTERM | SIGUSR1.

(** Line 243: [signal.Notify(quit, syscall.SIGINT, syscall.SIGTERM)]. *)
Definition notified (sig : Signal) : bool :=
  match sig with
  | SIGINT | SIGTERM => true
  | _ => false
  end.

(** The contexts with a deadline that [main] creates: the five of the Redis
    pings (lines 133-181) and the two of the shutdown. *)
Inductive Ctx : Type :=
| ping_ctx (db : nat)
| admin_ctx
| proxy_ctx.

(** The calls [main] makes once it has received from [quit]. *)
Inductive Call : Type :=
| eventConsumer_Stop
| memStore_Stop
| psMemStore_Stop
| cpMemStore_Stop
| rMemStore_Stop
| log_Infof (msg : string)
| log_Info (msg : string)
| log_Debugf (msg : string) (err : error)
| context_WithTimeout (ctx : Ctx) (d : Duration)
| as_Shutdown (ctx : Ctx)
| ps_Shutdown (ctx : Ctx)
| receive_Done (ctx : Ctx)
| cancel (ctx : Ctx).

Definition Second : Duration := 1000000000.

(** Lines 246-271, then the deferred [cancel]s in reverse order of their
    [defer] statements.  [as_err] and [ps_err] are what the two [Shutdown]
    calls return. *)
Definition shutdown (as_err ps_err : option error) : list Call :=
  [eventConsumer_Stop; memStore_Stop; psMemStore_Stop; cpMemStore_Stop;
   rMemStore_Stop; log_Infof "shutting down server..."]
  ++ [context_WithTimeout admin_ctx (5 * Second); as_Shutdown admin_ctx]
  ++ match as_err with
     | Some err => [log_Debugf "admin server shutdown: %v" err]
     | None => []
     end
  ++ [context_WithTimeout proxy_ctx (5 * Second); ps_Shutdown proxy_ctx]
  ++ match ps_err with
     | Some err => [log_Debugf "proxy server shutdown: %v" err]
     | None => []
     end
  ++ [receive_Done proxy_ctx; log_Info "timeout of 5 seconds";
      log_Info "server exited"]
  ++ [cancel proxy_ctx; cancel admin_ctx]
  ++ map (fun db => cancel (ping_ctx db)) [4; 3; 2; 1; 0]%nat.

(** Line 244: [<-quit] returns at the first delivered signal that was
    registered with [Notify]; until then [main] makes no call. *)
Definition main_after_Run (delivered : list Signal)
    (as_err ps_err : option error) : list Call :=
  if existsb notified delivered then shutdown as_err ps_err else [].

(** The calls that act on a server, and so the only ones that can close its
    listener. *)
Definition on_server (c : Call) : bool :=
  match c with
  | as_Shutdown _ | ps_Shutdown _ => true
  | _ => false
  end.

Definition is_consumer_stop (c : Call) : bool :=
  match c with
  | eventConsumer_Stop => true
  | _ => false
  end.

Definition is_log (c : Call) : bool :=
  match c with
  | log_Infof _ | log_Info _ | log_Debugf _ _ => true
  | _ => false
  end.

Definition is_cancel (c : Call) : bool :=
  match c with
  | cancel _ => true
  | _ => false
  end.

Definition is_refresher_stop (c : Call) : bool :=
  match c with
  | memStore_Stop | psMemStore_Stop | cpMemStore_Stop | rMemStore_Stop => true
  | _ => false
  end.

(** Some call satisfying [P] comes before some call satisfying [Q]. *)
Definition before (tr : list Call) (P Q : Call -> bool) : Prop :=
  exists (i j : nat) (a b : Call),
    (i < j)%nat /\ tr !! i = Some a /\ tr !! j = Some b /\
    P a = true /\ Q b = true.

(** Every call satisfying [P] comes before every call satisfying [Q]. *)
Definition all_before (tr : list Call) (P Q : Call -> bool) : Prop :=
  forall (i j : nat) (a b : Call),
    tr !! i = Some a -> tr !! j = Some b ->
    P a = true -> Q b = true -> (i < j)%nat.

(** The order of the specification's shutdown protocol: the listeners stop
    accepting, then the consumers stop, then the refreshers, then the servers
    are closed. *)
Definition listeners_first (tr : list Call) : Prop :=
  before tr on_server is_consumer_stop /\
  before tr is_consumer_stop is_refresher_stop /\
  before tr is_refresher_stop on_server.

End Main.

(** ** Concrete collaborators and requests

    Small stand-ins on which the definitions above can be evaluated: a
    decoder that knows two bodies, a clock that ticks once per read, an
    estimator with one price. *)

Module Demo.

Definition body (s : string) : bytes := list_byte_of_string s.

Definition is_body (s : string) (b : bytes) : bool :=
  String.eqb (string_of_list_byte b) s.

Definition chat_body : bytes :=
  body "{model:gpt-4,usage:{prompt_tokens:2,completion_tokens:1,total_tokens:3}}".

Definition embedding_body : bytes :=
  body "{model:ada,usage:{prompt_tokens:8,completion_tokens:5,total_tokens:13}}".

Definition error_body : bytes :=
  body "{error:{message:slow down,type:rate_limit}}".

Definition syntax_error : error := errorString "invalid character".

Definition rt : Runtime :=
  {| correlationId := "correlationId";
     json_Unmarshal_EmbeddingResponseBase64 := fun b =>
       if is_body "{model:ada,usage:{prompt_tokens:8,completion_tokens:5,total_tokens:13}}" b
       then Ok {| b64_Usage := {| PromptTokens := 8; CompletionTokens := 5;
                                  TotalTokens := 13 |} |}
       else Err syntax_error;
     json_Unmarshal_EmbeddingResponse := fun b =>
       if is_body "{model:ada,usage:{prompt_tokens:8,completion_tokens:5,total_tokens:13}}" b
       then Ok {| emb_Usage := {| PromptTokens := 8; CompletionTokens := 5;
                                  TotalTokens := 13 |} |}
       else Err syntax_error;
     json_Unmarshal_ChatCompletionResponse := fun b =>
       if is_body "{model:gpt-4,usage:{prompt_tokens:2,completion_tokens:1,total_tokens:3}}" b
       then Ok {| chat_Model := "gpt-4";
                  chat_Usage := {| PromptTokens := 2; CompletionTokens := 1;
                                   TotalTokens := 3 |} |}
       else Err syntax_error;
     json_Unmarshal_ErrorResponse := fun b =>
       if is_body "{error:{message:slow down,type:rate_limit}}" b
       then ({| ErrMessage := "slow down"; ErrType := "rate_limit" |}, None)
       else ({| ErrMessage := ""; ErrType := "" |}, Some syntax_error);
     time_ParseDuration := fun s =>
       if String.eqb s "60s" then Ok (60 * 1000000000)
       else Err (errorString "time: invalid duration");
     clock := fun n => 1000 * Z.of_nat n |}.

(** 30 and 60 USD per million tokens for gpt-4, nothing else priced. *)
Definition e : estimator :=
  {| EstimateTotalCost := fun model prompt completion =>
       if String.eqb model "gpt-4"
       then if (prompt =? 2) && (completion =? 1)
            then (0.00012%float, None)
            else (0%float, Some (errorString "not tabulated"))
       else (0%float, Some (errorString "model is not present in the cost map"));
     EstimateEmbeddingsInputCost := fun model tokens =>
       (0%float, Some (errorString "model is not present in the cost map")) |}.

Definition r : recorder := {| RecordKeySpend := fun _ _ _ => None |}.
Definition rm : routeManager := {| GetRouteFromMemDb := fun _ => None |}.

Definition redis_down : error := errorString "redis: connection refused".

(** A cache that misses and cannot store. *)
Definition broken_cache : cache :=
  {| StoreBytes := fun _ _ _ => Some redis_down;
     GetBytes := fun _ => Err redis_down |}.

(** A cache that holds [chat_body] under every key. *)
Definition warm_cache : cache :=
  {| StoreBytes := fun _ _ _ => None;
     GetBytes := fun _ => Ok chat_body |}.

Definition kc : ResponseKey := {| KeyId := "key-1"; CostLimitInUsdUnit := "d" |}.
Definition settings : list Setting := [{| Id := "s1"; Provider := "openai" |}].
Definition request : http_Request :=
  {| Method := "POST"; URL := "/api/routes/r"; ReqBody := body "{}" |}.

Definition upstream (status : Z) (b : bytes) : http_Response :=
  {| StatusCode := status;
     Header := [("Content-Type", ["application/json"]);
                ("Set-Cookie", ["a=1"; "b=2"])];
     Body := Ok b |}.

(** A route whose steps end in the given answer. *)
Definition route (embeddings : bool) (answer : result route_Response) : Route :=
  {| CacheConfig_ := Some {| Ttl := "60s" |};
     ShouldRunEmbeddings := embeddings;
     RunSteps := fun _ => answer |}.

Definition answer (provider : string) (status : Z) (b : bytes) : result route_Response :=
  Ok {| Model := "gpt-4"; RunProvider := provider; Response := upstream status b |}.

Definition ctx (rc : Route) : gin_Context :=
  {| Request := Some request;
     FullPath := "/api/routes/r";
     Keys := <["key" := VResponseKey kc]>
               (<["route_config" := VRoute rc]>
                  (<["settings" := VSettings settings]>
                     (<["cache_key" := VString "fp-1"]>
                        (<["correlationId" := VString "cid-1"]> ∅)))) |}.

Definition handle (ca : cache) (rc : Route) : Exec :=
  serve rt true false rm ca e e r (30 * 1000000000) (ctx rc).

End Demo.

(** ** Counting calls in a trace *)

Definition count (P : Effect -> bool) (tr : list Effect) : nat :=
  length (filter (fun ev => P ev = true) tr).

(** [c.Data] and [JSON]: the calls that write the status line and the body. *)
Definition is_status_write (ev : Effect) : bool :=
  match ev with
  | CtxData _ _ _ | JSON _ _ => true
  | _ => false
  end.

Definition is_header (ev : Effect) : bool :=
  match ev with CtxHeader _ _ => true | _ => false end.

Definition is_BodyClose (ev : Effect) : bool :=
  match ev with BodyClose => true | _ => false end.

Definition is_RunResCancel (ev : Effect) : bool :=
  match ev with RunResCancel => true | _ => false end.

Definition is_RunSteps (ev : Effect) : bool :=
  match ev with RouteRunSteps _ => true | _ => false end.

Definition is_GetBytes (ev : Effect) : bool :=
  match ev with CacheGetBytes _ => true | _ => false end.

Definition is_StoreBytes (ev : Effect) : bool :=
  match ev with CacheStoreBytes _ _ _ => true | _ => false end.

(** ** Blocks run on their own

    The effects of lines 132-145, and the state [parseResult] ends in, when
    started from a context with no effect recorded yet. *)
Definition store_calls (rt : Runtime) (prod : bool) (ca : cache) (rc : Route)
    (cacheKey : string) (shouldCache : bool) (cid : string) (b : bytes)
    : list Effect :=
  effects (snd (storeResponse rt prod ca rc cacheKey shouldCache cid b
                  {| keys := ∅; effects := []; ticks := 0 |})).

Definition accounted (rt : Runtime) (ca : cache) (kc : ResponseKey)
    (runEmbeddings : bool) (b : bytes) (e : estimator) (aoe : azureEstimator)
    (r : recorder) (model provider : string) (ks : gmap string Value) : Exec :=
  snd (parseResult rt ca kc runEmbeddings b e aoe r model provider
         {| keys := ks; effects := []; ticks := 0 |}).

(** ** The guards of the handler, in the order it tests them

    Lines 39-81: which [return] a request takes, or that it reaches
    [RunSteps]. *)
Inductive path (ca : cache) (c : gin_Context) : Prop :=
| no_request :
    Request c = None ->
    path ca c
| no_key request :
    Request c = Some request ->
    (forall kc, Keys c !! "key" <> Some (VResponseKey kc)) ->
    path ca c
| no_route_config request kc :
    Request c = Some request ->
    Keys c !! "key" = Some (VResponseKey kc) ->
    (forall rc, Keys c !! "route_config" <> Some (VRoute rc)) ->
    path ca c
| from_cache request kc rc cached :
    Request c = Some request ->
    Keys c !! "key" = Some (VResponseKey kc) ->
    Keys c !! "route_config" = Some (VRoute rc) ->
    cache_hit ca c = Some cached ->
    path ca c
| no_settings request kc rc :
    Request c = Some request ->
    Keys c !! "key" = Some (VResponseKey kc) ->
    Keys c !! "route_config" = Some (VRoute rc) ->
    cache_hit ca c = None ->
    (forall settings, Keys c !! "settings" <> Some (VSettings settings)) ->
    path ca c
| dispatched request kc rc settings :
    dispatches ca c request kc rc settings ->
    path ca c.

(** The last setting of a list with a given [Id]. *)
Fixpoint last_with_Id (id : string) (settings : list Setting) : option Setting :=
  match settings with
  | [] => None
  | setting :: rest =>
      match last_with_Id id rest with
      | Some later => Some later
      | None => if String.eqb (Id setting) id then Some setting else None
      end
  end.

(** ** More concrete requests *)

Module Cases.

(** A context from which one key has been removed. *)
Definition without (key : string) (c : gin_Context) : gin_Context :=
  {| Request := Request c; FullPath := FullPath c;
     Keys := delete key (Keys c) |}.

Definition chat_route : Route :=
  Demo.route false (Demo.answer "openai" 200 Demo.chat_body).

Definition chat_answer : route_Response :=
  {| Model := "gpt-4"; RunProvider := "openai";
     Response := Demo.upstream 200 Demo.chat_body |}.

Definition limited_answer : route_Response :=
  {| Model := "gpt-4"; RunProvider := "openai";
     Response := Demo.upstream 429 Demo.error_body |}.

Definition broken_pipe : error := errorString "unexpected EOF".

(** An answer whose body cannot be read. *)
Definition torn_answer : route_Response :=
  {| Model := "gpt-4"; RunProvider := "openai";
     Response := {| StatusCode := 200; Header := []; Body := Err broken_pipe |} |}.

(** A cache that misses and stores. *)
Definition cold_cache : cache :=
  {| StoreBytes := fun _ _ _ => None;
     GetBytes := fun _ => Ok [] |}.

Definition serve (ca : cache) (c : gin_Context) : Exec :=
  serve Demo.rt true false Demo.rm ca Demo.e Demo.e Demo.r 30 c.

End Cases.


(** ** Proof support *)

Ltac unfold_parse :=
  unfold parseResult, parseResult_body, parseResult_deferred, embeddings_block,
    chat_block, call_EstimateEmbeddingsInputCost, call_EstimateTotalCost,
    bind, ret, emit, c_Set, c_GetString, c_Get.

(** Case analysis on the innermost scrutinee that blocks evaluation. *)
Ltac break_match :=
  match goal with
  | |- context [match ?x with _ => _ end] =>
      lazymatch x with
      | context [match _ with _ => _ end] => fail
      | _ => destruct x eqn:?
      end
  end.

Ltac run_parse := unfold_parse; repeat (break_match; cbn); cbn.

(** ** Concrete runs *)

Example deadline_is_found_through_wrapping :
  errors_Is_DeadlineExceeded (wrapError "route" (wrapError "step 1" DeadlineExceeded))
  = true.
Proof. reflexivity. Qed.

Example later_setting_wins :
  settingsMap_of [{| Id := "s1"; Provider := "openai" |};
                  {| Id := "s1"; Provider := "azure" |}] !! "s1"
  = Some {| Id := "s1"; Provider := "azure" |}.
Proof. reflexivity. Qed.

(** The first scenario of the specification: 2 prompt tokens, 1 completion
    token, gpt-4. *)
Example happy_path_context :
  let ks := keys (Demo.handle Demo.broken_cache
                    (Demo.route false (Demo.answer "openai" 200 Demo.chat_body))) in
  (ks !! "model", ks !! "provider", ks !! "costInUsd",
   ks !! "promptTokenCount", ks !! "completionTokenCount")
  = (Some (VString "gpt-4"), Some (VString "openai"), Some (VFloat64 0.00012),
     Some (VInt 2), Some (VInt 1)).
Proof. vm_compute. reflexivity. Qed.

Example happy_path_response :
  response_of (effects (Demo.handle Demo.broken_cache
                          (Demo.route false
                             (Demo.answer "openai" 200 Demo.chat_body))))
  = [CtxHeader "Content-Type" "application/json";
     CtxHeader "Set-Cookie" "a=1"; CtxHeader "Set-Cookie" "b=2";
     CtxData 200 "application/json" Demo.chat_body].
Proof. vm_compute. reflexivity. Qed.

(** An embeddings answer whose usage block carries 5 completion tokens. *)
Example embeddings_context :
  let ks := keys (Demo.handle Demo.broken_cache
                    (Demo.route true
                       (Demo.answer "anthropic" 200 Demo.embedding_body))) in
  (ks !! "costInUsd", ks !! "promptTokenCount", ks !! "completionTokenCount")
  = (Some (VFloat64 0), Some (VInt 8), Some (VInt 0)).
Proof. vm_compute. reflexivity. Qed.

(** A status of 201 is not 200: the answer is passed through, but nothing
    is stored and nothing is accounted. *)
Example created_is_passed_through :
  let tr := effects (Demo.handle Demo.broken_cache
                       (Demo.route false
                          (Demo.answer "openai" 201 Demo.chat_body))) in
  (response_of tr, filter (fun ev => accounting_effect ev = true) tr)
  = ([CtxHeader "Content-Type" "application/json";
      CtxHeader "Set-Cookie" "a=1"; CtxHeader "Set-Cookie" "b=2";
      CtxData 201 "application/json" Demo.chat_body],
     [CtxSet "model" (VString "gpt-4")]).
Proof. vm_compute. reflexivity. Qed.

Section Accounting.

Context (rt : Runtime).

(** Every run of [parseResult] ends in the deferred function: it appends
    effects of the accounting kind only, leaves the clock alone, and the
    context differs from the one it started with by the four keys of
    [attach]. *)
Lemma parseResult_run ca kc runEmbeddings b e aoe r model provider s :
  exists c prompt completion tr,
    snd (parseResult rt ca kc runEmbeddings b e aoe r model provider s)
    = {| keys := attach provider c prompt completion (keys s);
         effects := effects s ++ tr; ticks := ticks s |}
    /\ Forall (fun ev => accounting_effect ev = true) tr.
Proof.
  unfold attach. run_parse.
  all: do 4 eexists; rewrite <- ?app_assoc; cbn; split; [reflexivity|].
  all: repeat constructor.
Qed.

(** The error [parseResult] returns depends on the context alone, not on the
    effects recorded so far nor on the clock. *)
Lemma parseResult_error_keys ca kc runEmbeddings b e aoe r model provider s :
  fst (parseResult rt ca kc runEmbeddings b e aoe r model provider s)
  = fst (parseResult rt ca kc runEmbeddings b e aoe r model provider
           {| keys := keys s; effects := []; ticks := 0 |}).
Proof.
  unfold_parse. cbn.
  repeat (break_match; cbn in *; try congruence).
Qed.

End Accounting.

(** ** The handler, block by block *)

Section Blocks.

Context (rt : Runtime).

Lemma header_values_run name values s :
  for_range values (fun value => emit (CtxHeader name value)) s
  = (tt, {| keys := keys s; effects := effects s ++ map (CtxHeader name) values;
            ticks := ticks s |}).
Proof.
  revert s. induction values as [|v values IH]; intros s; cbn.
  - rewrite app_nil_r. destruct s; reflexivity.
  - unfold bind, emit. rewrite IH. cbn. rewrite <- app_assoc. reflexivity.
Qed.

Lemma header_loop_run hdr s :
  copyHeaders hdr s
  = (tt, {| keys := keys s; effects := effects s ++ header_calls hdr;
            ticks := ticks s |}).
Proof.
  unfold copyHeaders.
  revert s. induction hdr as [|[name values] hdr IH]; intros s; cbn.
  - rewrite app_nil_r. destruct s; reflexivity.
  - unfold bind. rewrite header_values_run. rewrite IH. cbn.
    rewrite <- app_assoc. reflexivity.
Qed.

Lemma header_calls_In hdr ev :
  In ev (header_calls hdr) <->
  exists name values value,
    In (name, values) hdr /\ In value values /\ ev = CtxHeader name value.
Proof.
  unfold header_calls. rewrite in_flat_map. split.
  - intros [[name values] [Hin Hev]]. cbn in Hev.
    apply in_map_iff in Hev as [value [<- Hv]]. eauto 6.
  - intros (name & values & value & Hin & Hv & ->).
    exists (name, values). split; [assumption|]. cbn.
    apply in_map_iff. eauto.
Qed.

Lemma header_calls_response hdr :
  response_of (header_calls hdr) = header_calls hdr.
Proof.
  unfold response_of, header_calls.
  induction hdr as [|[name values] hdr IH]; [reflexivity|].
  change (flat_map ?f ((name, values) :: hdr))
    with (map (CtxHeader name) values ++ flat_map f hdr).
  rewrite filter_app, IH. f_equal.
  induction values as [|v values IHv]; [reflexivity|].
  change (map ?f (v :: values)) with (f v :: map f values).
  rewrite filter_cons_True by reflexivity. f_equal. exact IHv.
Qed.


(** A list of effects none of which writes to the client. *)
Lemma silent_response tr :
  Forall (fun ev => writes_response ev = false) tr -> response_of tr = [].
Proof.
  unfold response_of. induction 1 as [|ev tr Hev _ IH]; [reflexivity|].
  rewrite filter_cons_False by congruence. exact IH.
Qed.

(** Lines 132-145 append only the store and its log lines; the store, when it
    happens, has the handler's key, the upstream body and the route's TTL. *)
Lemma storeResponse_run prod ca rc cacheKey shouldCache cid b s :
  exists tr,
    storeResponse rt prod ca rc cacheKey shouldCache cid b s
    = (tt, {| keys := keys s; effects := effects s ++ tr; ticks := ticks s |})
    /\ Forall (fun ev => writes_response ev = false) tr
    /\ (forall k v ttl, In (CacheStoreBytes k v ttl) tr ->
          shouldCache = true /\ k = cacheKey /\ v = b /\
          exists cacheConfig,
            CacheConfig_ rc = Some cacheConfig /\
            time_ParseDuration rt (Ttl cacheConfig) = Ok ttl).
Proof.
  unfold storeResponse, logError, bind, emit, ret.
  destruct shouldCache, (CacheConfig_ rc) as [cc|] eqn:Hcc; cbn.
  2-4: exists []; rewrite app_nil_r; destruct s; cbn;
       (split; [reflexivity|split; [constructor|intros ? ? ? []]]).
  destruct (time_ParseDuration rt (Ttl cc)) as [parsed|err] eqn:Hp; cbn.
  - destruct (StoreBytes ca cacheKey b parsed) as [err|]; cbn;
      rewrite <- ?app_assoc; cbn; eexists; (split; [reflexivity|]);
      (split; [repeat constructor|]);
      intros k v ttl Hin; cbn in Hin;
      destruct Hin as [Heq|Hin]; try (destruct Hin as [Heq'|[]]; discriminate);
      try contradiction; inversion Heq; subst; eauto 10.
  - eexists; split; [reflexivity|]. split; [repeat constructor|].
    intros k v ttl [Heq|[]]; discriminate.
Qed.

End Blocks.

Section Handler.

Context (rt : Runtime).
Context (prod private : bool) (rm : routeManager) (ca : cache)
        (aoe : azureEstimator) (e : estimator) (r : recorder) (timeOut : Duration).

(** Lines 128-172 when the upstream answered 200. *)
Lemma respond_200 kc rc cacheKey shouldCache cid dur runRes b s :
  StatusCode (Response runRes) = 200 ->
  exists ks' tr_store tr_parse,
    snd (respond rt prod ca aoe e r kc rc cacheKey shouldCache cid dur runRes b s)
    = {| keys := ks';
         effects :=
           effects s
           ++ [StatsIncr "bricksllm.proxy.get_route_handeler.success" [];
               StatsTiming "bricksllm.proxy.get_route_handeler.success_latency" dur]
           ++ tr_store ++ tr_parse
           ++ accounting_log prod cid
                (fst (parseResult rt ca kc (ShouldRunEmbeddings rc) b e aoe r
                        (Model runRes) (RunProvider runRes)
                        {| keys := keys s; effects := []; ticks := 0 |}))
           ++ header_calls (Header (Response runRes))
           ++ [CtxData 200 "application/json" b];
         ticks := ticks s |}
    /\ Forall (fun ev => writes_response ev = false) tr_store
    /\ (forall k v ttl, In (CacheStoreBytes k v ttl) tr_store ->
          shouldCache = true /\ k = cacheKey /\ v = b /\
          exists cacheConfig,
            CacheConfig_ rc = Some cacheConfig /\
            time_ParseDuration rt (Ttl cacheConfig) = Ok ttl)
    /\ Forall (fun ev => accounting_effect ev = true) tr_parse.
Proof.
  intros Hst. unfold respond. rewrite Hst. cbn [Z.eqb Pos.eqb negb].
  unfold bind, emit. cbn [keys effects ticks].
  match goal with
  | |- context [storeResponse ?a ?b ?c ?d ?f ?g ?h ?i ?st] =>
      destruct (storeResponse_run a b c d f g h i st) as (tr1 & E1 & F1 & S1)
  end.
  rewrite E1. cbn [keys effects ticks].
  match goal with
  | |- context [parseResult ?a ?b ?c ?d ?f ?g ?h ?i ?j ?k ?st] =>
      destruct (parseResult_run a b c d f g h i j k st) as (x & p & n & tr2 & E2 & F2);
      pose proof (parseResult_error_keys a b c d f g h i j k st) as E3;
      destruct (parseResult a b c d f g h i j k st) as [err s2]
  end.
  cbn [fst snd keys effects ticks] in E2, E3. subst s2. rewrite <- E3.
  exists (attach (RunProvider runRes) x p n (keys s)), tr1, tr2.
  split; [|split; [assumption|split; assumption]].
  destruct err as [err|]; unfold logError, emit, ret, bind;
    cbn [keys effects ticks];
    rewrite header_loop_run; cbn [snd keys effects ticks accounting_log];
    rewrite <- ?app_assoc; cbn [app]; rewrite ?app_nil_r; reflexivity.
Qed.

(** Lines 128-172 when the upstream answered anything else. *)
Lemma respond_other kc rc cacheKey shouldCache cid dur runRes b s :
  StatusCode (Response runRes) <> 200 ->
  exists tr,
    snd (respond rt prod ca aoe e r kc rc cacheKey shouldCache cid dur runRes b s)
    = {| keys := keys s;
         effects :=
           effects s ++ tr
           ++ header_calls (Header (Response runRes))
           ++ [CtxData (StatusCode (Response runRes)) "application/json" b];
         ticks := ticks s |}
    /\ Forall (fun ev => diagnostic ev = true) tr.
Proof.
  intros Hst. unfold respond.
  destruct (StatusCode (Response runRes) =? 200) eqn:E;
    [apply Z.eqb_eq in E; contradiction|].
  cbn [negb]. unfold logError, bind, emit, ret.
  destruct (json_Unmarshal_ErrorResponse rt b) as [errorRes err].
  exists ([StatsTiming "bricksllm.proxy.get_azure_embeddings_handler.error_latency" dur;
           StatsIncr "bricksllm.proxy.get_azure_embeddings_handler.error_response" []]
          ++ match err with
             | Some err =>
                 [LogError
                    "error when unmarshalling azure openai embedding error response body"
                    prod cid err]
             | None => []
             end
          ++ [LogOpenAiError prod cid errorRes]).
  destruct err as [err|];
    cbn [keys effects ticks]; rewrite header_loop_run;
    cbn [snd keys effects ticks]; rewrite <- ?app_assoc; cbn [app];
    (split; [reflexivity|repeat constructor]).
Qed.

(** Lines 32-73 for a request that passes the guards and misses the cache:
    the handler continues with [runRoute]. *)
Lemma serve_dispatch c request kc rc settings :
  dispatches ca c request kc rc settings ->
  serve rt prod private rm ca aoe e r timeOut c
  = snd (runRoute rt prod ca aoe e r ["path:" +:+ FullPath c] request kc rc
           (cacheKey_of c)
           (negb (Z.of_nat (String.length (cacheKey_of c)) =? 0))
           {| keys := Keys c;
              effects :=
                StatsIncr "bricksllm.proxy.get_route_handeler.requests"
                  ["path:" +:+ FullPath c]
                :: (if negb (Z.of_nat (String.length (cacheKey_of c)) =? 0)
                    then [CacheGetBytes (cacheKey_of c)] else []);
              ticks := 1 |}).
Proof.
  intros (Hreq & Hkey & Hrc & Hmiss & _).
  unfold serve, getRouteHandler, enter.
  unfold bind at 1 2. unfold time_Now at 1, emit at 1. cbn [keys effects ticks app].
  rewrite Hreq.
  unfold bind at 1. unfold c_Get at 1. cbn [keys effects ticks]. rewrite Hkey.
  unfold bind at 1. unfold c_Get at 1. cbn [keys effects ticks]. rewrite Hrc.
  unfold bind at 1. unfold c_GetString at 1. cbn [keys effects ticks].
  fold (cacheKey_of c).
  unfold cache_hit in Hmiss. cbv zeta in Hmiss.
  unfold bind at 1. unfold serveCached.
  destruct (negb (Z.of_nat (String.length (cacheKey_of c)) =? 0)).
  - unfold bind at 1. unfold emit at 1. cbn [keys effects ticks app].
    destruct (GetBytes ca (cacheKey_of c)) as [cached|err].
    + destruct (negb (Z.of_nat (length cached) =? 0)); [discriminate|].
      reflexivity.
    + reflexivity.
  - reflexivity.
Qed.

(** Lines 75-172 when [RunSteps] returns a response whose body can be
    read: the handler sets ["model"], runs [respond], then the two deferred
    calls. *)
Lemma serve_ok c request kc rc settings runRes b :
  dispatches ca c request kc rc settings ->
  RunSteps rc (request_of request kc settings) = Ok runRes ->
  Body (Response runRes) = Ok b ->
  serve rt prod private rm ca aoe e r timeOut c
  = let s2 :=
      snd (respond rt prod ca aoe e r kc rc (cacheKey_of c)
             (negb (Z.of_nat (String.length (cacheKey_of c)) =? 0))
             (cid_of rt c) (clock rt 2 - clock rt 1) runRes b
             {| keys := <["model" := VString (Model runRes)]> (Keys c);
                effects := prelude rt c request kc settings runRes;
                ticks := 3 |}) in
    {| keys := keys s2; effects := effects s2 ++ [BodyClose; RunResCancel];
       ticks := ticks s2 |}.
Proof.
  intros Hd Hrun Hbody. rewrite (serve_dispatch _ _ _ _ _ Hd).
  destruct Hd as (_ & _ & _ & _ & Hset).
  unfold runRoute.
  unfold bind at 1. unfold c_Get at 1. cbn [keys effects ticks]. rewrite Hset.
  unfold bind at 1. unfold c_GetString at 1. cbn [keys effects ticks].
  fold (cid_of rt c).
  unfold bind at 1. unfold time_Now at 1. cbn [keys effects ticks].
  unfold bind at 1. unfold emit at 1. cbn [keys effects ticks].
  fold (request_of request kc settings). rewrite Hrun.
  unfold bind at 1. unfold c_Set at 1. cbn [keys effects ticks].
  unfold bind at 1. unfold time_Now at 1. cbn [keys effects ticks].
  unfold bind at 1. unfold emit at 1. cbn [keys effects ticks].
  unfold bind at 1 2. unfold emit at 1. cbn [keys effects ticks].
  rewrite Hbody. unfold prelude. cbv zeta.
  rewrite <- !app_assoc. cbn [app].
  match goal with
  | |- context [respond ?a1 ?a2 ?a3 ?a4 ?a5 ?a6 ?a7 ?a8 ?a9 ?a10 ?a11 ?a12 ?a13 ?a14 ?st] =>
      destruct (respond a1 a2 a3 a4 a5 a6 a7 a8 a9 a10 a11 a12 a13 a14 st) as [[] s2]
  end.
  unfold bind, emit. cbn [snd keys effects ticks]. rewrite <- app_assoc. reflexivity.
Qed.

(** Lines 75-109 when [RunSteps] returns an error. *)
Lemma serve_err c request kc rc settings err :
  dispatches ca c request kc rc settings ->
  RunSteps rc (request_of request kc settings) = Err err ->
  effects (serve rt prod private rm ca aoe e r timeOut c)
  = StatsIncr "bricksllm.proxy.get_route_handeler.requests" ["path:" +:+ FullPath c]
    :: (if negb (Z.of_nat (String.length (cacheKey_of c)) =? 0)
        then [CacheGetBytes (cacheKey_of c)] else [])
    ++ RouteRunSteps (request_of request kc settings)
    :: (if errors_Is_DeadlineExceeded err
        then [StatsIncr "bricksllm.proxy.get_route_handeler.timeout"
                ["path:" +:+ FullPath c];
              LogError "running steps time out" prod (cid_of rt c) err;
              JSON 408 "[BricksLLM] request timeout"]
        else [StatsIncr "bricksllm.proxy.get_route_handeler.run_steps_error"
                ["path:" +:+ FullPath c];
              LogError "error when running steps" prod (cid_of rt c) err;
              JSON 500 "[BricksLLM] cannot run route steps"]).
Proof.
  intros Hd Hrun. rewrite (serve_dispatch _ _ _ _ _ Hd).
  destruct Hd as (_ & _ & _ & _ & Hset).
  unfold runRoute.
  unfold bind at 1. unfold c_Get at 1. cbn [keys effects ticks]. rewrite Hset.
  unfold bind at 1. unfold c_GetString at 1. cbn [keys effects ticks].
  fold (cid_of rt c).
  unfold bind at 1. unfold time_Now at 1. cbn [keys effects ticks].
  unfold bind at 1. unfold emit at 1. cbn [keys effects ticks].
  fold (request_of request kc settings). rewrite Hrun.
  destruct (errors_Is_DeadlineExceeded err);
    unfold logError, bind, emit; cbn [snd keys effects ticks];
    rewrite <- !app_assoc; reflexivity.
Qed.

Lemma prelude_silent c request kc settings runRes :
  Forall (fun ev => writes_response ev = false)
    (prelude rt c request kc settings runRes).
Proof.
  unfold prelude.
  destruct (negb (Z.of_nat (String.length (cacheKey_of c)) =? 0));
    repeat constructor.
Qed.

Lemma prelude_stores_nothing c request kc settings runRes k v ttl :
  ~ In (CacheStoreBytes k v ttl) (prelude rt c request kc settings runRes).
Proof.
  unfold prelude.
  destruct (negb (Z.of_nat (String.length (cacheKey_of c)) =? 0));
    cbn; intuition discriminate.
Qed.

(** The whole trace of a request answered 200 by the upstream. *)
Lemma serve_200 c request kc rc settings runRes b :
  dispatches ca c request kc rc settings ->
  RunSteps rc (request_of request kc settings) = Ok runRes ->
  Body (Response runRes) = Ok b ->
  StatusCode (Response runRes) = 200 ->
  exists tr_store tr_parse,
    effects (serve rt prod private rm ca aoe e r timeOut c)
    = prelude rt c request kc settings runRes
      ++ [StatsIncr "bricksllm.proxy.get_route_handeler.success" [];
          StatsTiming "bricksllm.proxy.get_route_handeler.success_latency"
            (clock rt 2 - clock rt 1)]
      ++ tr_store ++ tr_parse
      ++ accounting_log prod (cid_of rt c)
           (accounting_error rt ca aoe e r c kc rc runRes b)
      ++ header_calls (Header (Response runRes))
      ++ [CtxData 200 "application/json" b; BodyClose; RunResCancel]
    /\ Forall (fun ev => writes_response ev = false) tr_store
    /\ (forall k v ttl, In (CacheStoreBytes k v ttl) tr_store ->
          negb (Z.of_nat (String.length (cacheKey_of c)) =? 0) = true /\
          k = cacheKey_of c /\ v = b /\
          exists cacheConfig,
            CacheConfig_ rc = Some cacheConfig /\
            time_ParseDuration rt (Ttl cacheConfig) = Ok ttl)
    /\ Forall (fun ev => accounting_effect ev = true) tr_parse.
Proof.
  intros Hd Hrun Hbody Hst.
  rewrite (serve_ok _ _ _ _ _ _ _ Hd Hrun Hbody). cbv zeta.
  match goal with
  | |- context [respond ?a1 ?a2 ?a3 ?a4 ?a5 ?a6 ?a7 ?a8 ?a9 ?a10 ?a11 ?a12 ?a13 ?a14 ?st] =>
      destruct (respond_200 a7 a8 a9 a10 a11 a12 a13 a14 st Hst)
        as (ks' & tr1 & tr2 & E & F1 & S1 & F2)
  end.
  rewrite E. cbn [keys effects ticks].
  exists tr1, tr2. split; [|split; [assumption|split; assumption]].
  unfold accounting_error. rewrite Hst. cbn [Z.eqb Pos.eqb].
  rewrite <- !app_assoc. reflexivity.
Qed.

(** The whole trace of a request answered with another status. *)
Lemma serve_other c request kc rc settings runRes b :
  dispatches ca c request kc rc settings ->
  RunSteps rc (request_of request kc settings) = Ok runRes ->
  Body (Response runRes) = Ok b ->
  StatusCode (Response runRes) <> 200 ->
  exists tr,
    effects (serve rt prod private rm ca aoe e r timeOut c)
    = prelude rt c request kc settings runRes
      ++ tr
      ++ header_calls (Header (Response runRes))
      ++ [CtxData (StatusCode (Response runRes)) "application/json" b;
          BodyClose; RunResCancel]
    /\ Forall (fun ev => diagnostic ev = true) tr.
Proof.
  intros Hd Hrun Hbody Hst.
  rewrite (serve_ok _ _ _ _ _ _ _ Hd Hrun Hbody). cbv zeta.
  match goal with
  | |- context [respond ?a1 ?a2 ?a3 ?a4 ?a5 ?a6 ?a7 ?a8 ?a9 ?a10 ?a11 ?a12 ?a13 ?a14 ?st] =>
      destruct (respond_other a7 a8 a9 a10 a11 a12 a13 a14 st Hst)
        as (tr & E & F)
  end.
  rewrite E. cbn [keys effects ticks].
  exists tr. split; [|assumption].
  rewrite <- !app_assoc. reflexivity.
Qed.

End Handler.

(** ** Reading the traces *)

Lemma accounting_silent tr :
  Forall (fun ev => accounting_effect ev = true) tr ->
  Forall (fun ev => writes_response ev = false) tr.
Proof.
  intros F. eapply Forall_impl; [exact F|].
  intros ev H. destruct ev; cbn in *; congruence.
Qed.

Lemma diagnostic_silent tr :
  Forall (fun ev => diagnostic ev = true) tr ->
  Forall (fun ev => writes_response ev = false) tr.
Proof.
  intros F. eapply Forall_impl; [exact F|].
  intros ev H. destruct ev; cbn in *; congruence.
Qed.

Lemma accounting_log_silent prod cid err :
  Forall (fun ev => writes_response ev = false) (accounting_log prod cid err).
Proof. destruct err; repeat constructor. Qed.

Lemma response_of_app tr1 tr2 :
  response_of (tr1 ++ tr2) = response_of tr1 ++ response_of tr2.
Proof. apply filter_app. Qed.

(** What the client receives when the upstream answered and its body was
    read: the upstream headers, then the upstream status and body. *)
Lemma serve_response rt prod private rm ca aoe e r timeOut
    c request kc rc settings runRes b :
  dispatches ca c request kc rc settings ->
  RunSteps rc (request_of request kc settings) = Ok runRes ->
  Body (Response runRes) = Ok b ->
  response_of (effects (serve rt prod private rm ca aoe e r timeOut c))
  = header_calls (Header (Response runRes))
    ++ [CtxData (StatusCode (Response runRes)) "application/json" b].
Proof.
  intros Hd Hrun Hbody.
  destruct (Z.eq_dec (StatusCode (Response runRes)) 200) as [Hst|Hst].
  - destruct (serve_200 rt prod private rm ca aoe e r timeOut _ _ _ _ _ _ _
                Hd Hrun Hbody Hst) as (tr1 & tr2 & E & F1 & _ & F2).
    rewrite E, Hst. rewrite !response_of_app.
    rewrite (silent_response _ (prelude_silent rt _ _ _ _ _)).
    rewrite (silent_response _ F1).
    rewrite (silent_response _ (accounting_silent _ F2)).
    rewrite (silent_response _ (accounting_log_silent _ _ _)).
    rewrite header_calls_response. reflexivity.
  - destruct (serve_other rt prod private rm ca aoe e r timeOut _ _ _ _ _ _ _
                Hd Hrun Hbody Hst) as (tr & E & F).
    rewrite E. rewrite !response_of_app.
    rewrite (silent_response _ (prelude_silent rt _ _ _ _ _)).
    rewrite (silent_response _ (diagnostic_silent _ F)).
    rewrite header_calls_response. reflexivity.
Qed.

(** * Properties checked against the specification *)

(** ** Cache hits *)

(** C1.  A request that reaches the cache lookup with a non-empty
    [cache_key], and for which [GetBytes] returns a non-empty slice and no
    error, is answered 200 with exactly those bytes.  The handler's effects
    are the request counter, the lookup, the success statistics, the
    ["provider"] mark and the response: no [RunSteps], no store, no estimator
    call, no accounting, nothing else. *)
Theorem cache_hit_served_without_dispatch
    rt prod private rm ca aoe e r timeOut c request kc rc cacheKey cached :
  Request c = Some request ->
  Keys c !! "key" = Some (VResponseKey kc) ->
  Keys c !! "route_config" = Some (VRoute rc) ->
  Keys c !! "cache_key" = Some (VString cacheKey) ->
  cacheKey <> "" ->
  GetBytes ca cacheKey = Ok cached ->
  cached <> [] ->
  serve rt prod private rm ca aoe e r timeOut c
  = {| keys := <["provider" := VString "cached"]> (Keys c);
       effects :=
         [StatsIncr "bricksllm.proxy.get_route_handeler.requests"
            ["path:" +:+ FullPath c];
          CacheGetBytes cacheKey;
          StatsIncr "bricksllm.proxy.get_route_handeler.success" [];
          StatsTiming "bricksllm.proxy.get_route_handeler.success_latency"
            (clock rt 1 - clock rt 0);
          CtxSet "provider" (VString "cached");
          CtxData 200 "application/json" cached];
       ticks := 2 |}.
Proof.
  intros Hreq Hkey Hrc Hck Hne Hget Hnb.
  unfold serve, getRouteHandler, enter.
  unfold bind at 1 2. unfold time_Now at 1, emit at 1. cbn [keys effects ticks app].
  rewrite Hreq.
  unfold bind at 1. unfold c_Get at 1. cbn [keys effects ticks]. rewrite Hkey.
  unfold bind at 1. unfold c_Get at 1. cbn [keys effects ticks]. rewrite Hrc.
  unfold bind at 1. unfold c_GetString at 1. cbn [keys effects ticks].
  rewrite Hck.
  destruct cacheKey as [|a k]; [contradiction|].
  destruct cached as [|x l]; [contradiction|].
  unfold serveCached, bind, emit, time_Now, c_Set, ret.
  cbn. rewrite Hget. cbn. reflexivity.
Qed.

Lemma cache_hit_served_without_dispatch_witness :
  serve Demo.rt true false Demo.rm Demo.warm_cache Demo.e Demo.e Demo.r 30
    (Demo.ctx (Demo.route false (Demo.answer "openai" 200 Demo.chat_body)))
  = {| keys := <["provider" := VString "cached"]>
                 (Keys (Demo.ctx (Demo.route false
                                    (Demo.answer "openai" 200 Demo.chat_body))));
       effects :=
         [StatsIncr "bricksllm.proxy.get_route_handeler.requests"
            ["path:/api/routes/r"];
          CacheGetBytes "fp-1";
          StatsIncr "bricksllm.proxy.get_route_handeler.success" [];
          StatsTiming "bricksllm.proxy.get_route_handeler.success_latency" 1000;
          CtxSet "provider" (VString "cached");
          CtxData 200 "application/json" Demo.chat_body];
       ticks := 2 |}.
Proof.
  refine (cache_hit_served_without_dispatch Demo.rt true false Demo.rm
            Demo.warm_cache Demo.e Demo.e Demo.r 30
            (Demo.ctx (Demo.route false (Demo.answer "openai" 200 Demo.chat_body)))
            Demo.request Demo.kc
            (Demo.route false (Demo.answer "openai" 200 Demo.chat_body))
            "fp-1" Demo.chat_body _ _ _ _ _ _ _).
  - reflexivity.
  - reflexivity.
  - reflexivity.
  - reflexivity.
  - discriminate.
  - reflexivity.
  - discriminate.
Defined.

(** ** Upstream answers *)



(** C5.  When [RunSteps] fails, the handler answers through [JSON] and
    writes nothing else to the client: status 408 with the message
    "[BricksLLM] request timeout" if the error is, or wraps,
    [context.DeadlineExceeded]; status 500 for any other error. *)
Theorem run_steps_error_status
    rt prod private rm ca aoe e r timeOut c request kc rc settings err :
  dispatches ca c request kc rc settings ->
  RunSteps rc (request_of request kc settings) = Err err ->
  response_of (effects (serve rt prod private rm ca aoe e r timeOut c))
  = if errors_Is_DeadlineExceeded err
    then [JSON 408 "[BricksLLM] request timeout"]
    else [JSON 500 "[BricksLLM] cannot run route steps"].
Proof.
  intros Hd Hrun.
  rewrite (serve_err rt prod private rm ca aoe e r timeOut _ _ _ _ _ _ Hd Hrun).
  destruct (negb (Z.of_nat (String.length (cacheKey_of c)) =? 0)),
           (errors_Is_DeadlineExceeded err); reflexivity.
Qed.

Lemma run_steps_error_status_witness :
  response_of
    (effects (serve Demo.rt true false Demo.rm Demo.broken_cache Demo.e Demo.e
                Demo.r 30
                (Demo.ctx (Demo.route false
                             (Err (wrapError "step 0" DeadlineExceeded))))))
  = [JSON 408 "[BricksLLM] request timeout"].
Proof.
  refine (run_steps_error_status Demo.rt true false Demo.rm
            Demo.broken_cache Demo.e Demo.e Demo.r 30
            (Demo.ctx (Demo.route false (Err (wrapError "step 0" DeadlineExceeded))))
            Demo.request Demo.kc
            (Demo.route false (Err (wrapError "step 0" DeadlineExceeded)))
            Demo.settings (wrapError "step 0" DeadlineExceeded) _ _).
  - repeat split; reflexivity.
  - reflexivity.
Defined.

(** C4.  When the upstream answers 2xx and the call of [parseResult] hands
    an error back to the handler (which happens at status 200 only, the one
    status at which the call is made), the handler logs that error and still
    answers 200 with the upstream headers and the upstream body. *)
Theorem accounting_failure_keeps_response
    rt prod private rm ca aoe e r timeOut c request kc rc settings runRes b err :
  dispatches ca c request kc rc settings ->
  RunSteps rc (request_of request kc settings) = Ok runRes ->
  Body (Response runRes) = Ok b ->
  200 <= StatusCode (Response runRes) < 300 ->
  accounting_error rt ca aoe e r c kc rc runRes b = Some err ->
  response_of (effects (serve rt prod private rm ca aoe e r timeOut c))
  = header_calls (Header (Response runRes))
    ++ [CtxData 200 "application/json" b]
  /\ In (LogError "error when parsing run steps result" prod (cid_of rt c) err)
        (effects (serve rt prod private rm ca aoe e r timeOut c)).
Proof.
  intros Hd Hrun Hbody _ Hacc.
  assert (Hst : StatusCode (Response runRes) = 200).
  { unfold accounting_error in Hacc.
    destruct (StatusCode (Response runRes) =? 200) eqn:E; [|discriminate].
    apply Z.eqb_eq. exact E. }
  split.
  - rewrite <- Hst. eapply serve_response; eassumption.
  - destruct (serve_200 rt prod private rm ca aoe e r timeOut _ _ _ _ _ _ _
                Hd Hrun Hbody Hst) as (tr1 & tr2 & E & _).
    rewrite E, Hacc. rewrite !in_app_iff. do 4 right. left.
    left. reflexivity.
Qed.

Lemma accounting_failure_keeps_response_witness :
  response_of
    (effects (serve Demo.rt true false Demo.rm Demo.broken_cache Demo.e Demo.e
                Demo.r 30
                (Demo.ctx (Demo.route false
                             (Demo.answer "openai" 200 Demo.error_body)))))
  = header_calls (Header (Demo.upstream 200 Demo.error_body))
    ++ [CtxData 200 "application/json" Demo.error_body]
  /\ In (LogError "error when parsing run steps result" true "cid-1"
           Demo.syntax_error)
        (effects (serve Demo.rt true false Demo.rm Demo.broken_cache Demo.e
                    Demo.e Demo.r 30
                    (Demo.ctx (Demo.route false
                                 (Demo.answer "openai" 200 Demo.error_body))))).
Proof.
  refine (accounting_failure_keeps_response Demo.rt true false Demo.rm
            Demo.broken_cache Demo.e Demo.e Demo.r 30
            (Demo.ctx (Demo.route false (Demo.answer "openai" 200 Demo.error_body)))
            Demo.request Demo.kc
            (Demo.route false (Demo.answer "openai" 200 Demo.error_body))
            Demo.settings
            {| Model := "gpt-4"; RunProvider := "openai";
               Response := Demo.upstream 200 Demo.error_body |}
            Demo.error_body Demo.syntax_error _ _ _ _ _).
  - repeat split; reflexivity.
  - reflexivity.
  - reflexivity.
  - cbn. lia.
  - reflexivity.
Defined.



(** ** Response accounting *)

(** C3.  Whatever the route kind, the provider and the outcome,
    [parseResult] never calls [RecordKeySpend]: the effects it adds are calls
    on the two estimators and [c.Set], and none of them is a call on the
    recorder. *)
Theorem parseResult_never_records_spend
    rt ca kc runEmbeddings b e aoe r model provider s :
  exists tr,
    effects (snd (parseResult rt ca kc runEmbeddings b e aoe r model provider s))
    = effects s ++ tr
    /\ Forall (fun ev => accounting_effect ev = true) tr
    /\ Forall (fun ev => is_RecordKeySpend ev = false) tr.
Proof.
  destruct (parseResult_run rt ca kc runEmbeddings b e aoe r model provider s)
    as (x & p & n & tr & E & F).
  exists tr. rewrite E. cbn [effects]. split; [reflexivity|].
  split; [assumption|].
  eapply Forall_impl; [exact F|].
  intros ev H. destruct ev; cbn in *; congruence.
Qed.

(** C9.  For a provider other than "azure" and "openai", [parseResult]
    calls no estimator and leaves ["costInUsd"] at 0 in the context, on
    embeddings and chat routes alike and whatever the response holds. *)
Theorem other_providers_cost_zero
    rt ca kc runEmbeddings b e aoe r model provider s :
  provider <> "azure" ->
  provider <> "openai" ->
  keys (snd (parseResult rt ca kc runEmbeddings b e aoe r model provider s))
    !! "costInUsd" = Some (VFloat64 0)
  /\ exists tr,
       effects (snd (parseResult rt ca kc runEmbeddings b e aoe r model provider s))
       = effects s ++ tr
       /\ Forall (fun ev => is_estimate ev = false) tr.
Proof.
  intros Hazure Hopenai.
  apply String.eqb_neq in Hazure, Hopenai.
  unfold_parse. rewrite Hazure, Hopenai.
  repeat (break_match; cbn); cbn.
  all: split;
    [ rewrite !lookup_insert_ne by discriminate; apply lookup_insert_eq
    | rewrite <- ?app_assoc; cbn; eexists; split;
      [reflexivity|repeat constructor] ].
Qed.

Lemma other_providers_cost_zero_witness :
  keys (snd (parseResult Demo.rt Demo.broken_cache Demo.kc false Demo.chat_body
               Demo.e Demo.e Demo.r "claude-2" "anthropic"
               (enter (Demo.ctx (Demo.route false
                                   (Demo.answer "anthropic" 200 Demo.chat_body))))))
    !! "costInUsd" = Some (VFloat64 0)
  /\ exists tr,
       effects (snd (parseResult Demo.rt Demo.broken_cache Demo.kc false
                       Demo.chat_body Demo.e Demo.e Demo.r "claude-2" "anthropic"
                       (enter (Demo.ctx (Demo.route false
                                           (Demo.answer "anthropic" 200
                                              Demo.chat_body))))))
       = effects (enter (Demo.ctx (Demo.route false
                                     (Demo.answer "anthropic" 200 Demo.chat_body))))
         ++ tr
       /\ Forall (fun ev => is_estimate ev = false) tr.
Proof.
  refine (other_providers_cost_zero Demo.rt Demo.broken_cache Demo.kc false
            Demo.chat_body Demo.e Demo.e Demo.r "claude-2" "anthropic"
            (enter (Demo.ctx (Demo.route false
                                (Demo.answer "anthropic" 200 Demo.chat_body))))
            _ _).
  - discriminate.
  - discriminate.
Defined.

(** C10.  On an embeddings route ["completionTokenCount"] is 0 in the
    context whatever the response holds and whatever the encoding format; and
    [parseResult] does not read [usage.completion_tokens] there: hiding that
    field from both embeddings decoders changes neither its result nor any of
    its effects. *)
Theorem embeddings_completion_zero rt ca kc b e aoe r model provider s :
  keys (snd (parseResult rt ca kc true b e aoe r model provider s))
    !! "completionTokenCount" = Some (VInt 0)
  /\ parseResult (hide_embeddings_completion rt) ca kc true b e aoe r model provider s
     = parseResult rt ca kc true b e aoe r model provider s.
Proof.
  split.
  - run_parse. all: apply lookup_insert_eq.
  - unfold_parse. cbn.
    repeat (break_match; cbn in *; try congruence).
Qed.



(** ** Shutdown *)

Lemma all_before_split (tr l1 l2 : list Main.Call) (P Q : Main.Call -> bool) :
  tr = l1 ++ l2 ->
  Forall (fun c => Q c = false) l1 ->
  Forall (fun c => P c = false) l2 ->
  Main.all_before tr P Q.
Proof.
  intros -> F1 F2 i j a b0 Hi Hj Pa Qb.
  rewrite Forall_forall in F1, F2.
  destruct (decide (i < length l1)%nat) as [Hlt|Hge].
  - destruct (decide (j < length l1)%nat) as [Hj1|Hj1]; [|lia].
    rewrite lookup_app_l in Hj by assumption.
    apply list_elem_of_lookup_2 in Hj. specialize (F1 _ Hj). congruence.
  - rewrite lookup_app_r in Hi by lia.
    apply list_elem_of_lookup_2 in Hi. specialize (F2 _ Hi). congruence.
Qed.

(** C8, as stated, fails.  After SIGTERM the first call of [main] is
    [eventConsumer.Stop()]: no call on the admin or the proxy server comes
    before it, so neither listener has been closed when the consumers
    stop. *)
Lemma listeners_not_closed_first :
  ~ Main.listeners_first (Main.main_after_Run [Main.SIGTERM] None None).
Proof.
  intros [(i & j & a & b0 & Hlt & Hi & Hj & Pa & Pb) _].
  destruct j as [|j]; [lia|].
  cbn in Hj.
  do 19 (destruct j as [|j];
         [cbn in Hj; injection Hj as <-; discriminate|]).
  cbn in Hj. discriminate.
Qed.

(** C8, amended.  Once SIGINT or SIGTERM has been delivered, [main] stops
    the event consumers, then the refreshers of the four replicas (keys,
    provider settings, custom providers, routes), then shuts the admin server
    down under a fresh 5-second deadline, then the proxy server under another
    5-second deadline, then waits for that last deadline's context to be done
    and returns.  Between those calls it only logs; the listeners are closed
    by the two [Shutdown] calls and not earlier: no call on either server
    comes before the stop of the consumers. *)
Theorem shutdown_order delivered sig as_err ps_err :
  In sig delivered ->
  sig = Main.SIGINT \/ sig = Main.SIGTERM ->
  exists logs1 logs2 deferred,
    Main.main_after_Run delivered as_err ps_err
    = [Main.eventConsumer_Stop;
       Main.memStore_Stop; Main.psMemStore_Stop; Main.cpMemStore_Stop;
       Main.rMemStore_Stop;
       Main.log_Infof "shutting down server...";
       Main.context_WithTimeout Main.admin_ctx (5 * Main.Second);
       Main.as_Shutdown Main.admin_ctx]
      ++ logs1
      ++ [Main.context_WithTimeout Main.proxy_ctx (5 * Main.Second);
          Main.ps_Shutdown Main.proxy_ctx]
      ++ logs2
      ++ [Main.receive_Done Main.proxy_ctx;
          Main.log_Info "timeout of 5 seconds";
          Main.log_Info "server exited"]
      ++ deferred
    /\ Forall (fun c => Main.is_log c = true) logs1
    /\ Forall (fun c => Main.is_log c = true) logs2
    /\ Forall (fun c => Main.is_cancel c = true) deferred
    /\ Main.all_before (Main.main_after_Run delivered as_err ps_err)
         Main.is_consumer_stop Main.is_refresher_stop
    /\ Main.all_before (Main.main_after_Run delivered as_err ps_err)
         Main.is_refresher_stop Main.on_server
    /\ ~ Main.before (Main.main_after_Run delivered as_err ps_err)
           Main.on_server Main.is_consumer_stop.
Proof.
  intros Hin Hsig.
  assert (Hn : existsb Main.notified delivered = true).
  { apply existsb_exists. exists sig. split; [assumption|].
    destruct Hsig as [-> | ->]; reflexivity. }
  unfold Main.main_after_Run. rewrite Hn. unfold Main.shutdown.
  eexists _, _, _. split; [reflexivity|].
  split; [destruct as_err; repeat constructor|].
  split; [destruct ps_err; repeat constructor|].
  split; [repeat constructor|].
  split; [|split].
  - eapply (all_before_split _ [Main.eventConsumer_Stop]); [reflexivity| |].
    + repeat constructor.
    + destruct as_err, ps_err; repeat constructor.
  - eapply (all_before_split _
              [Main.eventConsumer_Stop; Main.memStore_Stop; Main.psMemStore_Stop;
               Main.cpMemStore_Stop; Main.rMemStore_Stop;
               Main.log_Infof "shutting down server..."]); [reflexivity| |].
    + repeat constructor.
    + destruct as_err, ps_err; repeat constructor.
  - intros (i & j & a & b0 & Hlt & Hi & Hj & Pa & Pb).
    assert (Hb : Main.all_before
                   ([Main.eventConsumer_Stop] ++
                    skipn 1 (Main.shutdown as_err ps_err))
                   Main.is_consumer_stop Main.on_server).
    { eapply (all_before_split _ [Main.eventConsumer_Stop]); [reflexivity| |].
      - repeat constructor.
      - unfold Main.shutdown. destruct as_err, ps_err; repeat constructor. }
    specialize (Hb j i b0 a Hj Hi Pb Pa). lia.
Qed.

Lemma shutdown_order_witness :
  exists logs1 logs2 deferred,
    Main.main_after_Run [Main.SIGHUP; Main.SIGTERM]
      (Some DeadlineExceeded) None
    = [Main.eventConsumer_Stop;
       Main.memStore_Stop; Main.psMemStore_Stop; Main.cpMemStore_Stop;
       Main.rMemStore_Stop;
       Main.log_Infof "shutting down server...";
       Main.context_WithTimeout Main.admin_ctx (5 * Main.Second);
       Main.as_Shutdown Main.admin_ctx]
      ++ logs1
      ++ [Main.context_WithTimeout Main.proxy_ctx (5 * Main.Second);
          Main.ps_Shutdown Main.proxy_ctx]
      ++ logs2
      ++ [Main.receive_Done Main.proxy_ctx;
          Main.log_Info "timeout of 5 seconds";
          Main.log_Info "server exited"]
      ++ deferred
    /\ Forall (fun c => Main.is_log c = true) logs1
    /\ Forall (fun c => Main.is_log c = true) logs2
    /\ Forall (fun c => Main.is_cancel c = true) deferred
    /\ Main.all_before
         (Main.main_after_Run [Main.SIGHUP; Main.SIGTERM]
            (Some DeadlineExceeded) None)
         Main.is_consumer_stop Main.is_refresher_stop
    /\ Main.all_before
         (Main.main_after_Run [Main.SIGHUP; Main.SIGTERM]
            (Some DeadlineExceeded) None)
         Main.is_refresher_stop Main.on_server
    /\ ~ Main.before
           (Main.main_after_Run [Main.SIGHUP; Main.SIGTERM]
              (Some DeadlineExceeded) None)
           Main.on_server Main.is_consumer_stop.
Proof.
  refine (shutdown_order [Main.SIGHUP; Main.SIGTERM] Main.SIGTERM
            (Some DeadlineExceeded) None _ _).
  - simpl. right. left. reflexivity.
  - right. reflexivity.
Defined.

(** * Further properties of the handler *)

Lemma path_total ca c : path ca c.
Proof.
  destruct (Request c) as [request|] eqn:Hreq; [|apply no_request; assumption].
  destruct (Keys c !! "key") as [[kc| | | | | |]|] eqn:Hkey.
  2-8: eapply no_key; [eassumption|congruence].
  destruct (Keys c !! "route_config") as [[|rc| | | | |]|] eqn:Hrc.
  1,3-8: eapply no_route_config; try eassumption; congruence.
  destruct (cache_hit ca c) as [cached|] eqn:Hhit;
    [eapply from_cache; eassumption|].
  destruct (Keys c !! "settings") as [[| |settings| | | |]|] eqn:Hset.
  1-2,4-8: eapply no_settings; try eassumption; congruence.
  eapply dispatched. repeat split; eassumption.
Qed.

Section Guards.

Context (rt : Runtime).
Context (prod private : bool) (rm : routeManager) (ca : cache)
        (aoe : azureEstimator) (e : estimator) (r : recorder) (timeOut : Duration).

Ltac enter_handler :=
  unfold serve, getRouteHandler, enter;
  unfold bind at 1 2; unfold time_Now at 1, emit at 1;
  cbn [keys effects ticks app].

Ltac read_key H :=
  unfold bind at 1; unfold c_Get at 1; cbn [keys effects ticks];
  try rewrite H.

(** Line 39: a nil [c.Request]. *)
Lemma serve_no_request c :
  Request c = None ->
  serve rt prod private rm ca aoe e r timeOut c
  = {| keys := Keys c;
       effects :=
         [StatsIncr "bricksllm.proxy.get_route_handeler.requests"
            ["path:" +:+ FullPath c];
          JSON 500 "[BricksLLM] context is empty"];
       ticks := 1 |}.
Proof.
  intros Hreq. enter_handler. rewrite Hreq. reflexivity.
Qed.

(** Lines 44-50: no [*key.ResponseKey] under ["key"]. *)
Lemma serve_no_key c request :
  Request c = Some request ->
  (forall kc, Keys c !! "key" <> Some (VResponseKey kc)) ->
  serve rt prod private rm ca aoe e r timeOut c
  = {| keys := Keys c;
       effects :=
         [StatsIncr "bricksllm.proxy.get_route_handeler.requests"
            ["path:" +:+ FullPath c];
          StatsIncr "bricksllm.proxy.get_route_handeler.api_key_not_registered"
            ["path:" +:+ FullPath c];
          JSON 401 "[BricksLLM] api key is not registered"];
       ticks := 1 |}.
Proof.
  intros Hreq Hkey. enter_handler. rewrite Hreq. read_key Hreq.
  destruct (Keys c !! "key") as [[kc| | | | | |]|] eqn:E;
    try reflexivity.
  exfalso. eapply Hkey. reflexivity.
Qed.

(** Lines 52-58: no [*route.Route] under ["route_config"]. *)
Lemma serve_no_route_config c request kc :
  Request c = Some request ->
  Keys c !! "key" = Some (VResponseKey kc) ->
  (forall rc, Keys c !! "route_config" <> Some (VRoute rc)) ->
  serve rt prod private rm ca aoe e r timeOut c
  = {| keys := Keys c;
       effects :=
         [StatsIncr "bricksllm.proxy.get_route_handeler.requests"
            ["path:" +:+ FullPath c];
          StatsIncr "bricksllm.proxy.get_route_handeler.route_config_not_found"
            ["path:" +:+ FullPath c];
          JSON 404 "[BricksLLM] route config not found"];
       ticks := 1 |}.
Proof.
  intros Hreq Hkey Hrc. enter_handler. rewrite Hreq. read_key Hkey.
  read_key Hkey.
  destruct (Keys c !! "route_config") as [[|rc| | | | |]|] eqn:E;
    try reflexivity.
  exfalso. eapply Hrc. reflexivity.
Qed.

(** A cache hit, stated on [cache_hit]. *)
Lemma serve_from_cache c request kc rc cached :
  Request c = Some request ->
  Keys c !! "key" = Some (VResponseKey kc) ->
  Keys c !! "route_config" = Some (VRoute rc) ->
  cache_hit ca c = Some cached ->
  serve rt prod private rm ca aoe e r timeOut c
  = {| keys := <["provider" := VString "cached"]> (Keys c);
       effects :=
         [StatsIncr "bricksllm.proxy.get_route_handeler.requests"
            ["path:" +:+ FullPath c];
          CacheGetBytes (cacheKey_of c);
          StatsIncr "bricksllm.proxy.get_route_handeler.success" [];
          StatsTiming "bricksllm.proxy.get_route_handeler.success_latency"
            (clock rt 1 - clock rt 0);
          CtxSet "provider" (VString "cached");
          CtxData 200 "application/json" cached];
       ticks := 2 |}.
Proof.
  intros Hreq Hkey Hrc Hhit. enter_handler. rewrite Hreq.
  read_key Hkey. read_key Hrc.
  unfold bind at 1. unfold c_GetString at 1. cbn [keys effects ticks].
  fold (cacheKey_of c).
  unfold cache_hit in Hhit. cbv zeta in Hhit.
  unfold bind at 1. unfold serveCached.
  destruct (negb (Z.of_nat (String.length (cacheKey_of c)) =? 0)); [|discriminate].
  unfold bind at 1. unfold emit at 1. cbn [keys effects ticks app].
  destruct (GetBytes ca (cacheKey_of c)) as [b|err]; [|discriminate].
  destruct (negb (Z.of_nat (length b) =? 0)); [|discriminate].
  injection Hhit as ->.
  unfold bind, emit, time_Now, c_Set, ret. cbn. reflexivity.
Qed.

(** Lines 75-81: no [[]*provider.Setting] under ["settings"], after a miss. *)
Lemma serve_no_settings c request kc rc :
  Request c = Some request ->
  Keys c !! "key" = Some (VResponseKey kc) ->
  Keys c !! "route_config" = Some (VRoute rc) ->
  cache_hit ca c = None ->
  (forall settings, Keys c !! "settings" <> Some (VSettings settings)) ->
  serve rt prod private rm ca aoe e r timeOut c
  = {| keys := Keys c;
       effects :=
         StatsIncr "bricksllm.proxy.get_route_handeler.requests"
           ["path:" +:+ FullPath c]
         :: (if negb (Z.of_nat (String.length (cacheKey_of c)) =? 0)
             then [CacheGetBytes (cacheKey_of c)] else [])
         ++ [StatsIncr
               "bricksllm.proxy.get_route_handeler.provider_settings_not_found"
               ["path:" +:+ FullPath c];
             JSON 404 "[BricksLLM] provider settings not found"];
       ticks := 1 |}.
Proof.
  intros Hreq Hkey Hrc Hmiss Hset. enter_handler. rewrite Hreq.
  read_key Hkey. read_key Hrc.
  unfold bind at 1. unfold c_GetString at 1. cbn [keys effects ticks].
  fold (cacheKey_of c).
  unfold cache_hit in Hmiss. cbv zeta in Hmiss.
  unfold bind at 1. unfold serveCached.
  assert (Hrun : forall s, keys s = Keys c ->
            runRoute rt prod ca aoe e r ["path:" +:+ FullPath c] request kc rc
              (cacheKey_of c)
              (negb (Z.of_nat (String.length (cacheKey_of c)) =? 0)) s
            = (tt, {| keys := keys s;
                      effects := effects s ++
                        [StatsIncr
                           "bricksllm.proxy.get_route_handeler.provider_settings_not_found"
                           ["path:" +:+ FullPath c];
                         JSON 404 "[BricksLLM] provider settings not found"];
                      ticks := ticks s |})).
  { intros s Hs. unfold runRoute.
    unfold bind at 1. unfold c_Get at 1. cbn [keys effects ticks]. rewrite Hs.
    destruct (Keys c !! "settings") as [[| |settings| | | |]|] eqn:E;
      try (unfold bind, emit; cbn [keys effects ticks];
           rewrite ?Hs, <- ?app_assoc; reflexivity).
    exfalso. eapply Hset. reflexivity. }
  destruct (negb (Z.of_nat (String.length (cacheKey_of c)) =? 0)).
  - unfold bind at 1. unfold emit at 1. cbn [keys effects ticks app].
    destruct (GetBytes ca (cacheKey_of c)) as [b|err].
    + destruct (negb (Z.of_nat (length b) =? 0)); [discriminate|].
      unfold ret. rewrite Hrun by reflexivity. reflexivity.
    + unfold ret. rewrite Hrun by reflexivity. reflexivity.
  - unfold ret. rewrite Hrun by reflexivity. reflexivity.
Qed.

End Guards.

Section Dispatch.

Context (rt : Runtime).
Context (prod private : bool) (rm : routeManager) (ca : cache)
        (aoe : azureEstimator) (e : estimator) (r : recorder) (timeOut : Duration).

(** Lines 132-145 add [store_calls] to whatever came before. *)
Lemma storeResponse_frame rc cacheKey shouldCache cid b s :
  storeResponse rt prod ca rc cacheKey shouldCache cid b s
  = (tt, {| keys := keys s;
            effects := effects s ++ store_calls rt prod ca rc cacheKey shouldCache cid b;
            ticks := ticks s |}).
Proof.
  unfold store_calls, storeResponse, logError, bind, emit, ret.
  destruct shouldCache, (CacheConfig_ rc) as [cc|]; cbn;
    try (rewrite app_nil_r; destruct s; reflexivity).
  destruct (time_ParseDuration rt (Ttl cc)) as [parsed|err]; cbn;
    [destruct (StoreBytes ca cacheKey b parsed) as [err|]; cbn|];
    rewrite <- ?app_assoc; reflexivity.
Qed.

(** The four shapes of [store_calls]. *)
Lemma store_calls_shape rc cacheKey shouldCache cid b :
  let tr := store_calls rt prod ca rc cacheKey shouldCache cid b in
  tr = []
  \/ (exists err, tr = [LogError "error when parsing cache config ttl" prod cid err])
  \/ (exists ttl, tr = [CacheStoreBytes cacheKey b ttl])
  \/ (exists ttl err,
        tr = [CacheStoreBytes cacheKey b ttl;
              LogError "error when storing cached response" prod cid err]).
Proof.
  unfold store_calls, storeResponse, logError, bind, emit, ret.
  destruct shouldCache, (CacheConfig_ rc) as [cc|]; cbn; auto.
  destruct (time_ParseDuration rt (Ttl cc)) as [parsed|err]; cbn;
    [destruct (StoreBytes ca cacheKey b parsed) as [err|]; cbn|]; eauto 7.
Qed.

(** [parseResult] adds the effects of [accounted] to whatever came before,
    and its context and result are those of [accounted]. *)
Lemma parseResult_frame kc runEmbeddings b model provider s :
  parseResult rt ca kc runEmbeddings b e aoe r model provider s
  = (fst (parseResult rt ca kc runEmbeddings b e aoe r model provider
            {| keys := keys s; effects := []; ticks := 0 |}),
     {| keys := keys (accounted rt ca kc runEmbeddings b e aoe r model provider (keys s));
        effects := effects s
                   ++ effects (accounted rt ca kc runEmbeddings b e aoe r model
                                 provider (keys s));
        ticks := ticks s |}).
Proof.
  unfold accounted. unfold_parse. cbn.
  repeat (break_match; cbn in *; try congruence);
    rewrite <- ?app_assoc; reflexivity.
Qed.

Lemma accounted_effects kc runEmbeddings b model provider ks :
  Forall (fun ev => accounting_effect ev = true)
    (effects (accounted rt ca kc runEmbeddings b e aoe r model provider ks)).
Proof.
  unfold accounted.
  destruct (parseResult_run rt ca kc runEmbeddings b e aoe r model provider
              {| keys := ks; effects := []; ticks := 0 |})
    as (x & p & n & tr & E & F).
  rewrite E. exact F.
Qed.

(** [parseResult] calls an estimator at most once. *)
Lemma accounted_estimates kc runEmbeddings b model provider ks :
  (count is_estimate
     (effects (accounted rt ca kc runEmbeddings b e aoe r model provider ks))
   <= 1)%nat.
Proof.
  unfold accounted. run_parse. all: cbv; lia.
Qed.

(** The handler's final state when the upstream answered 200. *)
Lemma serve_200_exact c request kc rc settings runRes b :
  dispatches ca c request kc rc settings ->
  RunSteps rc (request_of request kc settings) = Ok runRes ->
  Body (Response runRes) = Ok b ->
  StatusCode (Response runRes) = 200 ->
  serve rt prod private rm ca aoe e r timeOut c
  = {| keys := keys (accounted rt ca kc (ShouldRunEmbeddings rc) b e aoe r
                       (Model runRes) (RunProvider runRes)
                       (<["model" := VString (Model runRes)]> (Keys c)));
       effects :=
         prelude rt c request kc settings runRes
         ++ [StatsIncr "bricksllm.proxy.get_route_handeler.success" [];
             StatsTiming "bricksllm.proxy.get_route_handeler.success_latency"
               (clock rt 2 - clock rt 1)]
         ++ store_calls rt prod ca rc (cacheKey_of c)
              (negb (Z.of_nat (String.length (cacheKey_of c)) =? 0))
              (cid_of rt c) b
         ++ effects (accounted rt ca kc (ShouldRunEmbeddings rc) b e aoe r
                       (Model runRes) (RunProvider runRes)
                       (<["model" := VString (Model runRes)]> (Keys c)))
         ++ accounting_log prod (cid_of rt c)
              (accounting_error rt ca aoe e r c kc rc runRes b)
         ++ header_calls (Header (Response runRes))
         ++ [CtxData 200 "application/json" b; BodyClose; RunResCancel];
       ticks := 3 |}.
Proof.
  intros Hd Hrun Hbody Hst.
  rewrite (serve_ok rt prod private rm ca aoe e r timeOut _ _ _ _ _ _ _
             Hd Hrun Hbody). cbv zeta.
  unfold respond. rewrite Hst. cbn [Z.eqb Pos.eqb negb].
  unfold bind, emit. cbn [keys effects ticks].
  rewrite storeResponse_frame. cbn [keys effects ticks].
  rewrite parseResult_frame. cbn [fst snd keys effects ticks].
  unfold accounting_error. rewrite Hst. cbn [Z.eqb Pos.eqb].
  match goal with
  | |- context [fst ?p] => destruct (fst p) as [err|]
  end;
    unfold logError, emit, ret; cbn [keys effects ticks];
    rewrite header_loop_run; cbn [snd keys effects ticks accounting_log];
    rewrite <- ?app_assoc; cbn [app]; rewrite ?app_nil_r;
    rewrite <- ?app_assoc; reflexivity.
Qed.

(** The handler's final state when the upstream answered another status. *)
Lemma serve_other_exact c request kc rc settings runRes b :
  dispatches ca c request kc rc settings ->
  RunSteps rc (request_of request kc settings) = Ok runRes ->
  Body (Response runRes) = Ok b ->
  StatusCode (Response runRes) <> 200 ->
  exists tr,
    serve rt prod private rm ca aoe e r timeOut c
    = {| keys := <["model" := VString (Model runRes)]> (Keys c);
         effects :=
           prelude rt c request kc settings runRes
           ++ tr
           ++ header_calls (Header (Response runRes))
           ++ [CtxData (StatusCode (Response runRes)) "application/json" b;
               BodyClose; RunResCancel];
         ticks := 3 |}
    /\ Forall (fun ev => diagnostic ev = true) tr.
Proof.
  intros Hd Hrun Hbody Hst.
  rewrite (serve_ok rt prod private rm ca aoe e r timeOut _ _ _ _ _ _ _
             Hd Hrun Hbody). cbv zeta.
  match goal with
  | |- context [respond ?a1 ?a2 ?a3 ?a4 ?a5 ?a6 ?a7 ?a8 ?a9 ?a10 ?a11 ?a12 ?a13 ?a14 ?st] =>
      destruct (respond_other a1 a2 a3 a4 a5 a6 a7 a8 a9 a10 a11 a12 a13 a14 st Hst)
        as (tr & E & F)
  end.
  rewrite E. cbn [keys effects ticks].
  exists tr. split; [|assumption].
  rewrite <- !app_assoc. reflexivity.
Qed.

(** The handler's final state when [RunSteps] failed: nothing was added to
    the context. *)
Lemma serve_err_exact c request kc rc settings err :
  dispatches ca c request kc rc settings ->
  RunSteps rc (request_of request kc settings) = Err err ->
  keys (serve rt prod private rm ca aoe e r timeOut c) = Keys c.
Proof.
  intros Hd Hrun. rewrite (serve_dispatch _ _ _ _ _ _ _ _ _ _ _ _ _ _ Hd).
  destruct Hd as (_ & _ & _ & _ & Hset).
  unfold runRoute.
  unfold bind at 1. unfold c_Get at 1. cbn [keys effects ticks]. rewrite Hset.
  unfold bind at 1. unfold c_GetString at 1. cbn [keys effects ticks].
  unfold bind at 1. unfold time_Now at 1. cbn [keys effects ticks].
  unfold bind at 1. unfold emit at 1. cbn [keys effects ticks].
  fold (request_of request kc settings). rewrite Hrun.
  destruct (errors_Is_DeadlineExceeded err);
    unfold logError, bind, emit; cbn [snd keys effects ticks]; reflexivity.
Qed.

(** Lines 121-126: the upstream body cannot be read. *)
Lemma serve_body_err c request kc rc settings runRes err :
  dispatches ca c request kc rc settings ->
  RunSteps rc (request_of request kc settings) = Ok runRes ->
  Body (Response runRes) = Err err ->
  serve rt prod private rm ca aoe e r timeOut c
  = {| keys := <["model" := VString (Model runRes)]> (Keys c);
       effects :=
         prelude rt c request kc settings runRes
         ++ [LogError "error when reading route response body" prod
               (cid_of rt c) err;
             JSON 500 "[BricksLLM] failed to read route response body";
             BodyClose; RunResCancel];
       ticks := 3 |}.
Proof.
  intros Hd Hrun Hbody.
  rewrite (serve_dispatch _ _ _ _ _ _ _ _ _ _ _ _ _ _ Hd).
  destruct Hd as (_ & _ & _ & _ & Hset).
  unfold runRoute.
  unfold bind at 1. unfold c_Get at 1. cbn [keys effects ticks]. rewrite Hset.
  unfold bind at 1. unfold c_GetString at 1. cbn [keys effects ticks].
  fold (cid_of rt c).
  unfold bind at 1. unfold time_Now at 1. cbn [keys effects ticks].
  unfold bind at 1. unfold emit at 1. cbn [keys effects ticks].
  fold (request_of request kc settings). rewrite Hrun.
  unfold logError, bind, emit, c_Set, time_Now. cbn [keys effects ticks].
  rewrite Hbody. unfold prelude. cbn [snd keys effects ticks].
  rewrite <- !app_assoc. cbn [app]. rewrite <- !app_assoc. reflexivity.
Qed.

End Dispatch.

(** ** Counting *)

Lemma count_app P tr1 tr2 : count P (tr1 ++ tr2) = (count P tr1 + count P tr2)%nat.
Proof. unfold count. rewrite filter_app. apply length_app. Qed.

Lemma count_cons P ev tr :
  count P (ev :: tr) = ((if P ev then 1 else 0) + count P tr)%nat.
Proof.
  unfold count. destruct (P ev) eqn:E.
  - rewrite filter_cons_True by assumption. reflexivity.
  - rewrite filter_cons_False by congruence. reflexivity.
Qed.

Lemma count_nil P : count P [] = 0%nat.
Proof. reflexivity. Qed.

Lemma count_zero P tr :
  Forall (fun ev => P ev = false) tr -> count P tr = 0%nat.
Proof.
  induction 1 as [|ev tr Hev _ IH]; [reflexivity|].
  rewrite count_cons, Hev, IH. reflexivity.
Qed.

Lemma count_zero_In P tr ev : count P tr = 0%nat -> In ev tr -> P ev = false.
Proof.
  induction tr as [|x tr IH]; [intros _ []|].
  rewrite count_cons. intros Hc [<-|Hin].
  - destruct (P x); [discriminate|reflexivity].
  - apply IH; [|assumption]. destruct (P x); [discriminate|assumption].
Qed.

Lemma header_calls_headers hdr :
  Forall (fun ev => is_header ev = true) (header_calls hdr).
Proof.
  apply Forall_forall. intros ev Hin. apply list_elem_of_In in Hin.
  apply header_calls_In in Hin as (? & ? & ? & _ & _ & ->). reflexivity.
Qed.

Lemma response_of_cons ev tr :
  response_of (ev :: tr)
  = if writes_response ev then ev :: response_of tr else response_of tr.
Proof.
  unfold response_of. destruct (writes_response ev) eqn:E.
  - rewrite filter_cons_True by assumption. reflexivity.
  - rewrite filter_cons_False by congruence. reflexivity.
Qed.

Lemma response_of_headers tr :
  Forall (fun ev => is_header ev = true) tr -> response_of tr = tr.
Proof.
  induction 1 as [|ev tr Hev _ IH]; [reflexivity|].
  rewrite response_of_cons, IH. destruct ev; try discriminate. reflexivity.
Qed.

(** Turning what is known of a piece of trace into what a count needs. *)
Ltac from_kind F :=
  eapply Forall_impl; [exact F|];
  let ev := fresh "ev" in let H := fresh "H" in
  intros ev H; destruct ev; cbn in *; congruence.

(** Case analysis on the path of a request, leaving the handler's final
    state in closed form in each case. *)
Ltac by_path rt prod private rm ca aoe e r timeOut c :=
  let Hreq := fresh "Hreq" in let Hkey := fresh "Hkey" in
  let Hrc := fresh "Hrc" in let Hhit := fresh "Hhit" in
  let Hset := fresh "Hset" in let Hd := fresh "Hd" in
  let Hrun := fresh "Hrun" in let Hbody := fresh "Hbody" in
  let Hst := fresh "Hst" in
  let request := fresh "request" in let kc := fresh "kc" in
  let rc := fresh "rc" in let cached := fresh "cached" in
  let settings := fresh "settings" in let runRes := fresh "runRes" in
  let b := fresh "b" in let err := fresh "err" in
  let tr := fresh "tr" in let Fd := fresh "Fd" in let E := fresh "E" in
  destruct (path_total ca c)
    as [Hreq | request Hreq Hkey | request kc Hreq Hkey Hrc
        | request kc rc cached Hreq Hkey Hrc Hhit
        | request kc rc Hreq Hkey Hrc Hhit Hset
        | request kc rc settings Hd];
  [ rewrite !(serve_no_request rt prod private rm ca aoe e r timeOut c Hreq)
  | rewrite !(serve_no_key rt prod private rm ca aoe e r timeOut c _ Hreq Hkey)
  | rewrite !(serve_no_route_config rt prod private rm ca aoe e r timeOut c _ _
                Hreq Hkey Hrc)
  | rewrite !(serve_from_cache rt prod private rm ca aoe e r timeOut c _ _ _ _
                Hreq Hkey Hrc Hhit)
  | rewrite !(serve_no_settings rt prod private rm ca aoe e r timeOut c _ _ _
                Hreq Hkey Hrc Hhit Hset)
  | destruct (RunSteps rc (request_of request kc settings)) as [runRes|err] eqn:Hrun;
    [ destruct (Body (Response runRes)) as [b|err] eqn:Hbody;
      [ destruct (Z.eq_dec (StatusCode (Response runRes)) 200) as [Hst|Hst];
        [ rewrite !(serve_200_exact rt prod private rm ca aoe e r timeOut c _ _ _ _ _ _
                      Hd Hrun Hbody Hst)
        | destruct (serve_other_exact rt prod private rm ca aoe e r timeOut c _ _ _ _ _ _
                      Hd Hrun Hbody Hst) as (tr & E & Fd);
          rewrite !E; clear E ]
      | rewrite !(serve_body_err rt prod private rm ca aoe e r timeOut c _ _ _ _ _ _
                    Hd Hrun Hbody) ]
    | rewrite ?(serve_err rt prod private rm ca aoe e r timeOut c _ _ _ _ _ Hd Hrun),
              ?(serve_err_exact rt prod private rm ca aoe e r timeOut c _ _ _ _ _
                  Hd Hrun) ] ];
  cbn [keys effects ticks].

(** Name the symbolic pieces of a trace and what is known of them. *)
Ltac name_pieces :=
  repeat match goal with
  | |- context [negb (Z.of_nat (String.length (cacheKey_of ?c)) =? 0)] =>
      destruct (negb (Z.of_nat (String.length (cacheKey_of c)) =? 0)) eqn:?
  | |- context [store_calls ?a ?b ?c ?d ?f false ?h ?i] =>
      change (store_calls a b c d f false h i) with (@nil Effect)
  | |- context [store_calls ?a ?b ?c ?d ?f ?g ?h ?i] =>
      let Hs := fresh "Hs" in
      destruct (store_calls_shape a b c d f g h i)
        as [Hs|[[? Hs]|[[? Hs]|(? & ? & Hs)]]]; rewrite !Hs; clear Hs
  | |- context [effects (accounted ?rt ?ca ?kc ?re ?b ?e ?aoe ?r ?m ?p ?ks)] =>
      let Fa := fresh "Fa" in let tra := fresh "tra" in
      pose proof (accounted_effects rt ca aoe e r kc re b m p ks) as Fa;
      let Fe := fresh "Fe" in
      pose proof (accounted_estimates rt ca aoe e r kc re b m p ks) as Fe;
      set (tra := effects (accounted rt ca kc re b e aoe r m p ks)) in *;
      clearbody tra
  | |- context [accounting_log ?p ?cid ?err] =>
      let o := fresh "o" in
      set (o := err) in *; clearbody o; destruct o; cbn [accounting_log]
  | |- context [header_calls ?hdr] =>
      let Fh := fresh "Fh" in let hs := fresh "hs" in
      pose proof (header_calls_headers hdr) as Fh;
      set (hs := header_calls hdr) in *; clearbody hs
  | |- context [prelude ?rt ?c ?req ?kc ?st ?rr] =>
      unfold prelude
  | |- context [if errors_Is_DeadlineExceeded ?err then _ else _] =>
      destruct (errors_Is_DeadlineExceeded err) eqn:?
  end.

(** Evaluate the counts of a trace whose pieces have been named. *)
Ltac count_pieces :=
  cbn [app];
  repeat first [rewrite count_app | rewrite count_cons | rewrite count_nil];
  repeat match goal with
  | F : Forall _ ?tr |- context [count ?P ?tr] =>
      rewrite (count_zero P tr) by (from_kind F)
  end;
  cbn.

(** ** Invariants of every run of the handler *)

(** X5.  On every path the handler writes the status line and body exactly
    once, through [c.Data] or [JSON], and that is its last write to the
    client: the only writes before it are [c.Header] calls. *)
Theorem one_status_write
    rt prod private rm ca aoe e r timeOut c :
  exists headers ev,
    response_of (effects (serve rt prod private rm ca aoe e r timeOut c))
    = headers ++ [ev]
    /\ is_status_write ev = true
    /\ Forall (fun h => is_header h = true) headers
    /\ count is_status_write
         (effects (serve rt prod private rm ca aoe e r timeOut c)) = 1%nat.
Proof.
  by_path rt prod private rm ca aoe e r timeOut c; name_pieces.
  all: try (exists []; eexists; split; [reflexivity|];
            split; [reflexivity|]; split; [constructor|reflexivity]).
  all: rewrite !response_of_app;
    repeat match goal with
    | F : Forall (fun ev => accounting_effect ev = true) ?tr
      |- context [response_of ?tr] =>
        rewrite (silent_response tr) by (from_kind F)
    | F : Forall (fun ev => diagnostic ev = true) ?tr
      |- context [response_of ?tr] =>
        rewrite (silent_response tr) by (from_kind F)
    | F : Forall (fun ev => is_header ev = true) ?tr
      |- context [response_of ?tr] =>
        rewrite (response_of_headers tr F)
    end;
    rewrite ?response_of_cons; cbn [writes_response app];
    change (response_of []) with (@nil Effect); cbn [app].
  all: eexists _, _; split; [reflexivity|];
    split; [reflexivity|]; split; [assumption|];
    count_pieces; reflexivity.
Qed.


Lemma ends_refl (suf : list Effect) : exists pre, suf = pre ++ suf.
Proof. exists []. reflexivity. Qed.

Lemma ends_cons (x : Effect) (l suf : list Effect) :
  (exists pre, l = pre ++ suf) -> exists pre, x :: l = pre ++ suf.
Proof. intros [pre ->]. exists (x :: pre). reflexivity. Qed.

Lemma ends_app (l1 l2 suf : list Effect) :
  (exists pre, l2 = pre ++ suf) -> exists pre, l1 ++ l2 = pre ++ suf.
Proof. intros [pre ->]. exists (l1 ++ pre). apply app_assoc. Qed.

(** X6.  The upstream response is released exactly when [RunSteps] handed
    one out.  If it did, [res.Body.Close()] and [runRes.Cancel()] are each
    called once, in that order, as the last two calls of the handler,
    whatever happened in between (unreadable body, upstream error, failed
    accounting).  If it did not, because the request was rejected, served
    from the cache, or [RunSteps] failed, neither is called. *)
Theorem upstream_response_released
    rt prod private rm ca aoe e r timeOut c :
  (count is_BodyClose (effects (serve rt prod private rm ca aoe e r timeOut c)) = 1%nat
   /\ count is_RunResCancel
        (effects (serve rt prod private rm ca aoe e r timeOut c)) = 1%nat
   /\ (exists pre,
         effects (serve rt prod private rm ca aoe e r timeOut c)
         = pre ++ [BodyClose; RunResCancel])
   /\ exists rc req runRes,
        Keys c !! "route_config" = Some (VRoute rc) /\
        In (RouteRunSteps req)
           (effects (serve rt prod private rm ca aoe e r timeOut c)) /\
        RunSteps rc req = Ok runRes)
  \/ (count is_BodyClose (effects (serve rt prod private rm ca aoe e r timeOut c)) = 0%nat
      /\ count is_RunResCancel
           (effects (serve rt prod private rm ca aoe e r timeOut c)) = 0%nat
      /\ forall rc req,
           Keys c !! "route_config" = Some (VRoute rc) ->
           In (RouteRunSteps req)
              (effects (serve rt prod private rm ca aoe e r timeOut c)) ->
           exists err, RunSteps rc req = Err err).
Proof.
  by_path rt prod private rm ca aoe e r timeOut c.
  1-5: right; name_pieces; (split; [reflexivity|]); (split; [reflexivity|]);
    intros rc' req _ Hin; cbn [In app] in Hin; exfalso;
    intuition discriminate.
  4: { right. destruct Hd as (_ & _ & Hrc' & _). name_pieces.
       all: split; [reflexivity|]; split; [reflexivity|];
         intros rc' req Hrc'' Hin; rewrite Hrc' in Hrc''; injection Hrc'' as <-;
         cbn [In app] in Hin; exists err;
         repeat destruct Hin as [Hin|Hin]; try discriminate; try contradiction;
         injection Hin as <-; assumption. }
  all: left; destruct Hd as (_ & _ & Hrc' & _); name_pieces.
  all: split; [count_pieces; reflexivity|];
    split; [count_pieces; reflexivity|];
    split;
    [ cbn [app]; repeat first [apply ends_refl | apply ends_cons | apply ends_app]
    | exists rc, (request_of request kc settings), runRes;
      split; [assumption|]; split; [|assumption];
      cbn [app In];
      first [ left; reflexivity | right; left; reflexivity
            | right; right; left; reflexivity ] ].
Qed.

(** X7.  On no path does the handler call [RecordKeySpend].  It calls an
    estimator at most once, and only for a request whose route ran and that
    is answered 200: never on a cache hit, a rejection or an upstream
    error. *)
Theorem handler_never_records_spend
    rt prod private rm ca aoe e r timeOut c :
  count is_RecordKeySpend
    (effects (serve rt prod private rm ca aoe e r timeOut c)) = 0%nat
  /\ (count is_estimate
        (effects (serve rt prod private rm ca aoe e r timeOut c)) <= 1)%nat
  /\ (count is_estimate
        (effects (serve rt prod private rm ca aoe e r timeOut c)) <> 0%nat ->
      count is_RunSteps
        (effects (serve rt prod private rm ca aoe e r timeOut c)) = 1%nat
      /\ exists b,
           In (CtxData 200 "application/json" b)
              (effects (serve rt prod private rm ca aoe e r timeOut c))).
Proof.
  by_path rt prod private rm ca aoe e r timeOut c.
  6: { name_pieces.
       all: split; [count_pieces; reflexivity|];
         split; [count_pieces; lia|];
         intros _; split; [count_pieces; reflexivity|];
         exists b; cbn [app];
         repeat first [apply in_eq | apply in_cons | apply in_or_app; right]. }
  all: name_pieces.
  all: split; [count_pieces; reflexivity|].
  all: split; [count_pieces; lia|].
  all: intros Hne; exfalso; apply Hne; count_pieces; reflexivity.
Qed.

(** X8.  On every path the handler calls [GetBytes], [RunSteps] and
    [StoreBytes] at most once each.  A lookup is made with the request's
    non-empty cache key only, and a store only after a lookup and a run of
    the route in the same request. *)
Theorem collaborators_called_at_most_once
    rt prod private rm ca aoe e r timeOut c :
  (count is_GetBytes
     (effects (serve rt prod private rm ca aoe e r timeOut c)) <= 1)%nat
  /\ (count is_RunSteps
        (effects (serve rt prod private rm ca aoe e r timeOut c)) <= 1)%nat
  /\ (count is_StoreBytes
        (effects (serve rt prod private rm ca aoe e r timeOut c)) <= 1)%nat
  /\ (count is_StoreBytes
        (effects (serve rt prod private rm ca aoe e r timeOut c)) = 1%nat ->
      count is_GetBytes
        (effects (serve rt prod private rm ca aoe e r timeOut c)) = 1%nat
      /\ count is_RunSteps
           (effects (serve rt prod private rm ca aoe e r timeOut c)) = 1%nat)
  /\ (forall k,
        In (CacheGetBytes k)
           (effects (serve rt prod private rm ca aoe e r timeOut c)) ->
        k = cacheKey_of c /\ k <> "").
Proof.
  assert (Hkey : forall k, negb (Z.of_nat (String.length k) =? 0) = true -> k <> "").
  { intros k Hk Hk'. subst k. cbn in Hk. discriminate Hk. }
  by_path rt prod private rm ca aoe e r timeOut c.
  4: { assert (Hne : negb (Z.of_nat (String.length (cacheKey_of c)) =? 0) = true).
       { unfold cache_hit in Hhit. cbv zeta in Hhit.
         destruct (negb (Z.of_nat (String.length (cacheKey_of c)) =? 0));
           [reflexivity|discriminate]. }
       split; [count_pieces; lia|]. split; [count_pieces; lia|].
       split; [count_pieces; lia|]. split; [count_pieces; intros; lia|].
       intros k Hin. cbn [In] in Hin.
       destruct Hin as [Hin|[Hin|Hin]]; [discriminate Hin| |].
       - injection Hin as <-. split; [reflexivity|apply Hkey; exact Hne].
       - exfalso. intuition discriminate. }
  all: name_pieces.
  all: split; [count_pieces; lia|].
  all: split; [count_pieces; lia|].
  all: split; [count_pieces; lia|].
  all: split; [count_pieces;
               first [intros Hx; discriminate Hx | intros _; split; reflexivity
                     | intros; lia]|].
  all: intros k Hin; rewrite ?in_app_iff in Hin; cbn in Hin;
    rewrite ?in_app_iff in Hin; cbn in Hin.
  all: repeat match goal with
       | H : _ \/ _ |- _ => destruct H
       | H : False |- _ => destruct H
       | H : CacheGetBytes _ = CacheGetBytes _ |- _ => injection H as <-
       | H : _ = CacheGetBytes _ |- _ => discriminate H
       | H : In (CacheGetBytes _) ?tr, F : Forall _ ?tr |- _ =>
           exfalso; rewrite Forall_forall in F; apply list_elem_of_In in H;
           specialize (F _ H); discriminate
       end.
  all: split; [reflexivity|apply Hkey; assumption].
Qed.

(** ** Rejections *)

(** X1.  Authentication comes before the cache.  A request whose context
    has no ["key"], or holds something other than a [*key.ResponseKey] under
    it, is answered 401 "api key is not registered"; whatever the cache
    holds, the handler neither reads it nor runs the route, and it leaves the
    context as it found it. *)
Theorem unregistered_key_never_reaches_cache
    rt prod private rm ca aoe e r timeOut c request :
  Request c = Some request ->
  (forall kc, Keys c !! "key" <> Some (VResponseKey kc)) ->
  response_of (effects (serve rt prod private rm ca aoe e r timeOut c))
  = [JSON 401 "[BricksLLM] api key is not registered"]
  /\ count is_GetBytes
       (effects (serve rt prod private rm ca aoe e r timeOut c)) = 0%nat
  /\ count is_RunSteps
       (effects (serve rt prod private rm ca aoe e r timeOut c)) = 0%nat
  /\ keys (serve rt prod private rm ca aoe e r timeOut c) = Keys c.
Proof.
  intros Hreq Hkey.
  rewrite !(serve_no_key rt prod private rm ca aoe e r timeOut c _ Hreq Hkey).
  repeat split; reflexivity.
Qed.

Lemma unregistered_key_never_reaches_cache_witness :
  response_of
    (effects (Cases.serve Demo.warm_cache
                (Cases.without "key" (Demo.ctx Cases.chat_route))))
  = [JSON 401 "[BricksLLM] api key is not registered"]
  /\ count is_GetBytes
       (effects (Cases.serve Demo.warm_cache
                   (Cases.without "key" (Demo.ctx Cases.chat_route)))) = 0%nat
  /\ count is_RunSteps
       (effects (Cases.serve Demo.warm_cache
                   (Cases.without "key" (Demo.ctx Cases.chat_route)))) = 0%nat
  /\ keys (Cases.serve Demo.warm_cache
             (Cases.without "key" (Demo.ctx Cases.chat_route)))
     = Keys (Cases.without "key" (Demo.ctx Cases.chat_route)).
Proof.
  refine (unregistered_key_never_reaches_cache Demo.rt true false Demo.rm
            Demo.warm_cache Demo.e Demo.e Demo.r 30
            (Cases.without "key" (Demo.ctx Cases.chat_route))
            Demo.request _ _).
  - reflexivity.
  - intros kc. vm_compute. discriminate.
Defined.

(** X2.  A request with a registered key but no [*route.Route] under
    ["route_config"] is answered 404 "route config not found", likewise
    before the cache is read or the route run. *)
Theorem missing_route_config_rejected
    rt prod private rm ca aoe e r timeOut c request kc :
  Request c = Some request ->
  Keys c !! "key" = Some (VResponseKey kc) ->
  (forall rc, Keys c !! "route_config" <> Some (VRoute rc)) ->
  response_of (effects (serve rt prod private rm ca aoe e r timeOut c))
  = [JSON 404 "[BricksLLM] route config not found"]
  /\ count is_GetBytes
       (effects (serve rt prod private rm ca aoe e r timeOut c)) = 0%nat
  /\ count is_RunSteps
       (effects (serve rt prod private rm ca aoe e r timeOut c)) = 0%nat
  /\ keys (serve rt prod private rm ca aoe e r timeOut c) = Keys c.
Proof.
  intros Hreq Hkey Hrc.
  rewrite !(serve_no_route_config rt prod private rm ca aoe e r timeOut c _ _
              Hreq Hkey Hrc).
  repeat split; reflexivity.
Qed.

Lemma missing_route_config_rejected_witness :
  response_of
    (effects (Cases.serve Demo.warm_cache
                (Cases.without "route_config" (Demo.ctx Cases.chat_route))))
  = [JSON 404 "[BricksLLM] route config not found"]
  /\ count is_GetBytes
       (effects (Cases.serve Demo.warm_cache
                   (Cases.without "route_config" (Demo.ctx Cases.chat_route))))
     = 0%nat
  /\ count is_RunSteps
       (effects (Cases.serve Demo.warm_cache
                   (Cases.without "route_config" (Demo.ctx Cases.chat_route))))
     = 0%nat
  /\ keys (Cases.serve Demo.warm_cache
             (Cases.without "route_config" (Demo.ctx Cases.chat_route)))
     = Keys (Cases.without "route_config" (Demo.ctx Cases.chat_route)).
Proof.
  refine (missing_route_config_rejected Demo.rt true false Demo.rm
            Demo.warm_cache Demo.e Demo.e Demo.r 30
            (Cases.without "route_config" (Demo.ctx Cases.chat_route))
            Demo.request Demo.kc _ _ _).
  - reflexivity.
  - reflexivity.
  - intros rc. vm_compute. discriminate.
Defined.

(** X3.  Provider settings are required only on a miss.  After the cache
    lookup missed (or none was made), a request without a
    [[]*provider.Setting] under ["settings"] is answered 404 "provider
    settings not found" and the route is not run; the lookup has been made by
    then exactly when the request carries a cache key. *)
Theorem missing_settings_rejected_after_miss
    rt prod private rm ca aoe e r timeOut c request kc rc :
  Request c = Some request ->
  Keys c !! "key" = Some (VResponseKey kc) ->
  Keys c !! "route_config" = Some (VRoute rc) ->
  cache_hit ca c = None ->
  (forall settings, Keys c !! "settings" <> Some (VSettings settings)) ->
  response_of (effects (serve rt prod private rm ca aoe e r timeOut c))
  = [JSON 404 "[BricksLLM] provider settings not found"]
  /\ count is_RunSteps
       (effects (serve rt prod private rm ca aoe e r timeOut c)) = 0%nat
  /\ count is_GetBytes
       (effects (serve rt prod private rm ca aoe e r timeOut c))
     = (if String.eqb (cacheKey_of c) "" then 0 else 1)%nat
  /\ keys (serve rt prod private rm ca aoe e r timeOut c) = Keys c.
Proof.
  intros Hreq Hkey Hrc Hmiss Hset.
  rewrite !(serve_no_settings rt prod private rm ca aoe e r timeOut c _ _ _
              Hreq Hkey Hrc Hmiss Hset).
  cbn [keys effects].
  destruct (cacheKey_of c) as [|a k]; cbn; repeat split; reflexivity.
Qed.

Lemma missing_settings_rejected_after_miss_witness :
  response_of
    (effects (Cases.serve Demo.broken_cache
                (Cases.without "settings" (Demo.ctx Cases.chat_route))))
  = [JSON 404 "[BricksLLM] provider settings not found"]
  /\ count is_RunSteps
       (effects (Cases.serve Demo.broken_cache
                   (Cases.without "settings" (Demo.ctx Cases.chat_route))))
     = 0%nat
  /\ count is_GetBytes
       (effects (Cases.serve Demo.broken_cache
                   (Cases.without "settings" (Demo.ctx Cases.chat_route))))
     = 1%nat
  /\ keys (Cases.serve Demo.broken_cache
             (Cases.without "settings" (Demo.ctx Cases.chat_route)))
     = Keys (Cases.without "settings" (Demo.ctx Cases.chat_route)).
Proof.
  refine (missing_settings_rejected_after_miss Demo.rt true false Demo.rm
            Demo.broken_cache Demo.e Demo.e Demo.r 30
            (Cases.without "settings" (Demo.ctx Cases.chat_route))
            Demo.request Demo.kc Cases.chat_route _ _ _ _ _).
  - reflexivity.
  - reflexivity.
  - reflexivity.
  - reflexivity.
  - intros settings. vm_compute. discriminate.
Defined.

(** ** After the route ran *)

Lemma nonempty_key k :
  k <> "" -> negb (Z.of_nat (String.length k) =? 0) = true.
Proof. destruct k; [contradiction|reflexivity]. Qed.

(** X4.  When the upstream body cannot be read the handler logs the read
    error and answers 500 "failed to read route response body": no upstream
    header is copied, nothing is stored and nothing is accounted, the context
    has gained ["model"] only, and the two deferred calls still run after the
    answer. *)
Theorem unreadable_body_answered_500
    rt prod private rm ca aoe e r timeOut c request kc rc settings runRes err :
  dispatches ca c request kc rc settings ->
  RunSteps rc (request_of request kc settings) = Ok runRes ->
  Body (Response runRes) = Err err ->
  response_of (effects (serve rt prod private rm ca aoe e r timeOut c))
  = [JSON 500 "[BricksLLM] failed to read route response body"]
  /\ (exists pre,
        effects (serve rt prod private rm ca aoe e r timeOut c)
        = pre ++ [LogError "error when reading route response body" prod
                    (cid_of rt c) err;
                  JSON 500 "[BricksLLM] failed to read route response body";
                  BodyClose; RunResCancel])
  /\ count is_StoreBytes
       (effects (serve rt prod private rm ca aoe e r timeOut c)) = 0%nat
  /\ count is_estimate
       (effects (serve rt prod private rm ca aoe e r timeOut c)) = 0%nat
  /\ keys (serve rt prod private rm ca aoe e r timeOut c)
     = <["model" := VString (Model runRes)]> (Keys c).
Proof.
  intros Hd Hrun Hbody.
  rewrite !(serve_body_err rt prod private rm ca aoe e r timeOut c _ _ _ _ _ _
              Hd Hrun Hbody).
  cbn [keys effects]. name_pieces.
  all: split; [reflexivity|]; split; [eexists; reflexivity|];
    split; [reflexivity|]; split; reflexivity.
Qed.

Lemma unreadable_body_answered_500_witness :
  response_of
    (effects (Cases.serve Demo.broken_cache
                (Demo.ctx (Demo.route false (Ok Cases.torn_answer)))))
  = [JSON 500 "[BricksLLM] failed to read route response body"]
  /\ (exists pre,
        effects (Cases.serve Demo.broken_cache
                   (Demo.ctx (Demo.route false (Ok Cases.torn_answer))))
        = pre ++ [LogError "error when reading route response body" true
                    "cid-1" Cases.broken_pipe;
                  JSON 500 "[BricksLLM] failed to read route response body";
                  BodyClose; RunResCancel])
  /\ count is_StoreBytes
       (effects (Cases.serve Demo.broken_cache
                   (Demo.ctx (Demo.route false (Ok Cases.torn_answer))))) = 0%nat
  /\ count is_estimate
       (effects (Cases.serve Demo.broken_cache
                   (Demo.ctx (Demo.route false (Ok Cases.torn_answer))))) = 0%nat
  /\ keys (Cases.serve Demo.broken_cache
             (Demo.ctx (Demo.route false (Ok Cases.torn_answer))))
     = <["model" := VString "gpt-4"]>
         (Keys (Demo.ctx (Demo.route false (Ok Cases.torn_answer)))).
Proof.
  refine (unreadable_body_answered_500 Demo.rt true false Demo.rm
            Demo.broken_cache Demo.e Demo.e Demo.r 30
            (Demo.ctx (Demo.route false (Ok Cases.torn_answer)))
            Demo.request Demo.kc (Demo.route false (Ok Cases.torn_answer))
            Demo.settings Cases.torn_answer Cases.broken_pipe _ _ _).
  - repeat split; reflexivity.
  - reflexivity.
  - reflexivity.
Defined.

(** X9.  A 200 answer is stored when it can be.  With a non-empty cache
    key, a route that has a [CacheConfig], and a [Ttl] that
    [time.ParseDuration] accepts, the handler calls [StoreBytes] exactly
    once, with the cache key, the upstream body and the parsed duration, and
    before it writes anything to the client; an error of [StoreBytes] is
    logged. *)
Theorem ok_answer_is_stored
    rt prod private rm ca aoe e r timeOut c request kc rc settings runRes b
    cacheConfig ttl :
  dispatches ca c request kc rc settings ->
  RunSteps rc (request_of request kc settings) = Ok runRes ->
  Body (Response runRes) = Ok b ->
  StatusCode (Response runRes) = 200 ->
  cacheKey_of c <> "" ->
  CacheConfig_ rc = Some cacheConfig ->
  time_ParseDuration rt (Ttl cacheConfig) = Ok ttl ->
  (exists pre post,
     effects (serve rt prod private rm ca aoe e r timeOut c)
     = pre ++ CacheStoreBytes (cacheKey_of c) b ttl :: post
     /\ response_of pre = [])
  /\ count is_StoreBytes
       (effects (serve rt prod private rm ca aoe e r timeOut c)) = 1%nat
  /\ (forall err,
        StoreBytes ca (cacheKey_of c) b ttl = Some err ->
        In (LogError "error when storing cached response" prod (cid_of rt c) err)
           (effects (serve rt prod private rm ca aoe e r timeOut c))).
Proof.
  intros Hd Hrun Hbody Hst Hkey Hcc Httl.
  rewrite !(serve_200_exact rt prod private rm ca aoe e r timeOut c _ _ _ _ _ _
              Hd Hrun Hbody Hst).
  cbn [keys effects].
  assert (Hs : store_calls rt prod ca rc (cacheKey_of c)
                 (negb (Z.of_nat (String.length (cacheKey_of c)) =? 0))
                 (cid_of rt c) b
               = CacheStoreBytes (cacheKey_of c) b ttl
                 :: match StoreBytes ca (cacheKey_of c) b ttl with
                    | Some err =>
                        [LogError "error when storing cached response" prod
                           (cid_of rt c) err]
                    | None => []
                    end).
  { unfold store_calls, storeResponse, logError, bind, emit, ret.
    rewrite (nonempty_key _ Hkey), Hcc, Httl. cbn.
    destruct (StoreBytes ca (cacheKey_of c) b ttl); reflexivity. }
  rewrite !Hs. clear Hs.
  split; [|split].
  - eexists (prelude rt c request kc settings runRes
             ++ [StatsIncr "bricksllm.proxy.get_route_handeler.success" [];
                 StatsTiming "bricksllm.proxy.get_route_handeler.success_latency"
                   (clock rt 2 - clock rt 1)]), _.
    split.
    + rewrite <- (app_assoc (prelude rt c request kc settings runRes)).
      cbn [app]. reflexivity.
    + rewrite response_of_app.
      rewrite (silent_response _ (prelude_silent rt _ _ _ _ _)). reflexivity.
  - unfold prelude. rewrite (nonempty_key _ Hkey). name_pieces;
      destruct (StoreBytes ca (cacheKey_of c) b ttl);
      count_pieces; reflexivity.
  - intros err ->. rewrite !in_app_iff. right. right. left.
    right. left. reflexivity.
Qed.

Lemma ok_answer_is_stored_witness :
  (exists pre post,
     effects (Cases.serve Demo.broken_cache (Demo.ctx Cases.chat_route))
     = pre ++ CacheStoreBytes "fp-1" Demo.chat_body 60000000000 :: post
     /\ response_of pre = [])
  /\ count is_StoreBytes
       (effects (Cases.serve Demo.broken_cache (Demo.ctx Cases.chat_route)))
     = 1%nat
  /\ (forall err,
        StoreBytes Demo.broken_cache "fp-1" Demo.chat_body 60000000000 = Some err ->
        In (LogError "error when storing cached response" true "cid-1" err)
           (effects (Cases.serve Demo.broken_cache (Demo.ctx Cases.chat_route)))).
Proof.
  refine (ok_answer_is_stored Demo.rt true false Demo.rm
            Demo.broken_cache Demo.e Demo.e Demo.r 30
            (Demo.ctx Cases.chat_route)
            Demo.request Demo.kc Cases.chat_route Demo.settings
            Cases.chat_answer Demo.chat_body {| Ttl := "60s" |} 60000000000
            _ _ _ _ _ _ _).
  - repeat split; reflexivity.
  - reflexivity.
  - reflexivity.
  - reflexivity.
  - discriminate.
  - reflexivity.
  - reflexivity.
Defined.
